(** * The VMware builder of packer: [builder/vmware/builder.go]

    A shallow embedding of [Builder.Prepare], [Builder.Run], [Builder.Cancel]
    and [Builder.newDriver], together with the library calls they rely on
    ([time.ParseDuration], [filepath.Walk], the multistep runner), and the
    properties of the builder stated over them. *)

From Stdlib Require Import ZArith NArith String Ascii List Lia.
From stdpp Require Import gmap strings list fin_maps.

Local Open Scope string_scope.
Local Open Scope list_scope.
Local Open Scope Z_scope.

(** ** Go errors

    A Go [error] is represented by what the builder can observe of it: the
    errors made by [errors.New] and [fmt.Errorf], or handed back by a library
    call, by their message; [packer.MultiError] by the list it wraps. *)

#[local] Set Warnings "-register-all".

Inductive error : Type :=
| errorString (msg : string)
| MultiError (Errors : list error).

(** ** [time.ParseDuration]

    Go's parser of duration strings, after the standard library's
    [time/format.go] in its [int64] form: an optional sign, then one or more
    elements, each a decimal number with an optional fraction and a unit.
    A [Duration] is a signed 64-bit count of nanoseconds; sums and products
    are written with their wrap-around and the overflow tests of the Go
    code.  Where Go scales the fractional digits through [float64], the
    product below is exact. *)

Module Time.

Definition Duration : Type := Z.

Definition Nanosecond : Duration := 1.
Definition Microsecond : Duration := 1000 * Nanosecond.
Definition Millisecond : Duration := 1000 * Microsecond.
Definition Second : Duration := 1000 * Millisecond.
Definition Minute : Duration := 60 * Second.
Definition Hour : Duration := 60 * Minute.

Definition maxInt64 : Z := 2 ^ 63 - 1.

(** Two's-complement reduction of an integer to 64 signed bits. *)
Definition wrap64 (z : Z) : Z := (z + 2 ^ 63) mod 2 ^ 64 - 2 ^ 63.

Definition isDigit (c : ascii) : bool :=
  ((48 <=? N_of_ascii c) && (N_of_ascii c <=? 57))%N.

Definition isDot (c : ascii) : bool := (N_of_ascii c =? 46)%N.

Definition digitVal (c : ascii) : Z := Z.of_N (N_of_ascii c) - 48.

(** [leadingInt] consumes the leading digits of [s]; [None] is Go's
    [errLeadingInt] (overflow).  [x] is the value read so far. *)
Fixpoint leadingInt_from (x : Z) (s : string) : option (Z * string) :=
  match s with
  | String c s' =>
      if isDigit c then
        if x >? maxInt64 / 10 then None
        else
          let x' := wrap64 (x * 10 + digitVal c) in
          if x' <? 0 then None else leadingInt_from x' s'
      else Some (x, s)
  | EmptyString => Some (x, s)
  end.

Definition leadingInt (s : string) : option (Z * string) := leadingInt_from 0 s.

(** [leadingFraction] consumes the leading digits of [s] as the digits
    after a decimal point: the value [x], its [scale] (a power of ten) and
    the rest.  Digits past an overflow are read and dropped. *)
Fixpoint leadingFraction_from (x scale : Z) (overflow : bool) (s : string)
  : Z * Z * string :=
  match s with
  | String c s' =>
      if isDigit c then
        if overflow then leadingFraction_from x scale overflow s'
        else if x >? maxInt64 / 10 then leadingFraction_from x scale true s'
        else
          let y := wrap64 (x * 10 + digitVal c) in
          if y <? 0 then leadingFraction_from x scale true s'
          else leadingFraction_from y (scale * 10) overflow s'
      else (x, scale, s)
  | EmptyString => (x, scale, s)
  end.

Definition leadingFraction (s : string) : Z * Z * string :=
  leadingFraction_from 0 1 false s.

(** The unit of an element: the characters up to the next ['.'] or digit. *)
Fixpoint unitSpan (s : string) : string * string :=
  match s with
  | String c s' =>
      if isDot c || isDigit c then (EmptyString, s)
      else let '(u, r) := unitSpan s' in (String c u, r)
  | EmptyString => (EmptyString, EmptyString)
  end.

(** The UTF-8 spellings of the micro sign (U+00B5) and of mu (U+03BC). *)
Definition micro_s : string :=
  String (ascii_of_N 194) (String (ascii_of_N 181) "s").
Definition mu_s : string :=
  String (ascii_of_N 206) (String (ascii_of_N 188) "s").

Definition unitMap : gmap string Z :=
  list_to_map
    [ ("ns", Nanosecond); ("us", Microsecond); (micro_s, Microsecond);
      (mu_s, Microsecond); ("ms", Millisecond); ("s", Second);
      ("m", Minute); ("h", Hour) ].

Definition invalid (orig : string) : Duration * option string :=
  (0, Some ("time: invalid duration " +:+ orig)).

(** The loop [for s != ""] of [ParseDuration]: one element (number, optional
    fraction, unit) per iteration, added to [d].  Every iteration consumes at
    least the unit, so [String.length s] iterations are enough
    ([parseLoop_fuel] below); [None] is the loop running out of [fuel]. *)
Fixpoint parseLoop (fuel : nat) (orig s : string) (d : Z)
  : option (Duration * option string) :=
  match s with
  | EmptyString => Some (d, None)
  | String c0 _ =>
      match fuel with
      | O => None
      | S fuel' =>
          if negb (isDot c0 || isDigit c0) then Some (invalid orig)
          else
            match leadingInt s with
            | None => Some (invalid orig)
            | Some (v, s1) =>
                let pre := negb (String.length s =? String.length s1)%nat in
                let '(f, scale, s2, post) :=
                  match s1 with
                  | String c1 t =>
                      if isDot c1 then
                        let '(f, scale, r) := leadingFraction t in
                        (f, scale, r,
                         negb (String.length t =? String.length r)%nat)
                      else (0, 1, s1, false)
                  | EmptyString => (0, 1, s1, false)
                  end in
                if negb pre && negb post then Some (invalid orig)
                else
                  let '(u, s3) := unitSpan s2 in
                  match u with
                  | EmptyString =>
                      Some (0, Some ("time: missing unit in duration " +:+ orig))
                  | String _ _ =>
                      match unitMap !! u with
                      | None =>
                          Some (0, Some ("time: unknown unit " +:+ u
                                         +:+ " in duration " +:+ orig))
                      | Some unit =>
                          if v >? maxInt64 / unit then Some (invalid orig)
                          else
                            let v1 := wrap64 (v * unit) in
                            let v2 :=
                              if f >? 0
                              then wrap64 (v1 + (f * unit) / scale)
                              else v1 in
                            if v2 <? 0 then Some (invalid orig)
                            else
                              let d' := wrap64 (d + v2) in
                              if d' <? 0 then Some (invalid orig)
                              else parseLoop fuel' orig s3 d'
                      end
                  end
            end
      end
  end.


(** [ParseDuration s]: the duration and the error of Go's pair; the duration
    is [0] whenever the error is present. *)
Definition ParseDuration (s : string) : Duration * option string :=
  let orig := s in
  let '(neg, s) :=
    match s with
    | String c r =>
        if (N_of_ascii c =? 45)%N then (true, r)
        else if (N_of_ascii c =? 43)%N then (false, r)
        else (false, s)
    | EmptyString => (false, s)
    end in
  if String.eqb s "0" then (0, None)
  else if String.eqb s "" then invalid orig
  else
    match parseLoop (String.length s) orig s 0 with
    | Some (d, None) => (if neg then wrap64 (- d) else d, None)
    | Some (_, Some e) => (0, Some e)
    | None => invalid orig
    end.

End Time.


(** ** The builder's data

    [config] has the fields of the Go struct, in its order.  A [uint] is a
    natural number (the builder compares port numbers and never computes
    with them, so its width plays no part); a [time.Duration] is the signed
    nanosecond count of [Time]; [map[string]string] is a finite map. *)

Record config : Type := mkConfig {
  DiskName : string;
  GuestOSType : string;
  ISOUrl : string;
  VMName : string;
  OutputDir : string;
  HTTPDir : string;
  HTTPPortMin : N;
  HTTPPortMax : N;
  BootCommand : list string;
  BootWait : Time.Duration;
  ShutdownCommand : string;
  ShutdownTimeout : Time.Duration;
  SSHUser : string;
  SSHPassword : string;
  SSHWaitTimeout : Time.Duration;
  VMXData : gmap string string;
  VNCPortMin : N;
  VNCPortMax : N;
  RawBootWait : string;
  RawShutdownTimeout : string;
  RawSSHWaitTimeout : string
}.

(** The zero value of [config], the content of a [Builder] just allocated. *)
Definition config_zero : config :=
  mkConfig EmptyString EmptyString EmptyString EmptyString EmptyString
    EmptyString 0%N 0%N [] 0 EmptyString 0 EmptyString EmptyString 0 ∅ 0%N 0%N
    EmptyString EmptyString EmptyString.

(** Assignment to one field: [set_F v c] is [c] after [c.F = v]. *)

Definition set_DiskName (v : string) (c : config) : config :=
  mkConfig v (GuestOSType c) (ISOUrl c) (VMName c) (OutputDir c) (HTTPDir c)
    (HTTPPortMin c) (HTTPPortMax c) (BootCommand c) (BootWait c)
    (ShutdownCommand c) (ShutdownTimeout c) (SSHUser c) (SSHPassword c)
    (SSHWaitTimeout c) (VMXData c) (VNCPortMin c) (VNCPortMax c)
    (RawBootWait c) (RawShutdownTimeout c) (RawSSHWaitTimeout c).

Definition set_GuestOSType (v : string) (c : config) : config :=
  mkConfig (DiskName c) v (ISOUrl c) (VMName c) (OutputDir c) (HTTPDir c)
    (HTTPPortMin c) (HTTPPortMax c) (BootCommand c) (BootWait c)
    (ShutdownCommand c) (ShutdownTimeout c) (SSHUser c) (SSHPassword c)
    (SSHWaitTimeout c) (VMXData c) (VNCPortMin c) (VNCPortMax c)
    (RawBootWait c) (RawShutdownTimeout c) (RawSSHWaitTimeout c).

Definition set_ISOUrl (v : string) (c : config) : config :=
  mkConfig (DiskName c) (GuestOSType c) v (VMName c) (OutputDir c)
    (HTTPDir c) (HTTPPortMin c) (HTTPPortMax c) (BootCommand c) (BootWait c)
    (ShutdownCommand c) (ShutdownTimeout c) (SSHUser c) (SSHPassword c)
    (SSHWaitTimeout c) (VMXData c) (VNCPortMin c) (VNCPortMax c)
    (RawBootWait c) (RawShutdownTimeout c) (RawSSHWaitTimeout c).

Definition set_VMName (v : string) (c : config) : config :=
  mkConfig (DiskName c) (GuestOSType c) (ISOUrl c) v (OutputDir c)
    (HTTPDir c) (HTTPPortMin c) (HTTPPortMax c) (BootCommand c) (BootWait c)
    (ShutdownCommand c) (ShutdownTimeout c) (SSHUser c) (SSHPassword c)
    (SSHWaitTimeout c) (VMXData c) (VNCPortMin c) (VNCPortMax c)
    (RawBootWait c) (RawShutdownTimeout c) (RawSSHWaitTimeout c).

Definition set_OutputDir (v : string) (c : config) : config :=
  mkConfig (DiskName c) (GuestOSType c) (ISOUrl c) (VMName c) v (HTTPDir c)
    (HTTPPortMin c) (HTTPPortMax c) (BootCommand c) (BootWait c)
    (ShutdownCommand c) (ShutdownTimeout c) (SSHUser c) (SSHPassword c)
    (SSHWaitTimeout c) (VMXData c) (VNCPortMin c) (VNCPortMax c)
    (RawBootWait c) (RawShutdownTimeout c) (RawSSHWaitTimeout c).

Definition set_HTTPDir (v : string) (c : config) : config :=
  mkConfig (DiskName c) (GuestOSType c) (ISOUrl c) (VMName c) (OutputDir c) v
    (HTTPPortMin c) (HTTPPortMax c) (BootCommand c) (BootWait c)
    (ShutdownCommand c) (ShutdownTimeout c) (SSHUser c) (SSHPassword c)
    (SSHWaitTimeout c) (VMXData c) (VNCPortMin c) (VNCPortMax c)
    (RawBootWait c) (RawShutdownTimeout c) (RawSSHWaitTimeout c).

Definition set_HTTPPortMin (v : N) (c : config) : config :=
  mkConfig (DiskName c) (GuestOSType c) (ISOUrl c) (VMName c) (OutputDir c)
    (HTTPDir c) v (HTTPPortMax c) (BootCommand c) (BootWait c)
    (ShutdownCommand c) (ShutdownTimeout c) (SSHUser c) (SSHPassword c)
    (SSHWaitTimeout c) (VMXData c) (VNCPortMin c) (VNCPortMax c)
    (RawBootWait c) (RawShutdownTimeout c) (RawSSHWaitTimeout c).

Definition set_HTTPPortMax (v : N) (c : config) : config :=
  mkConfig (DiskName c) (GuestOSType c) (ISOUrl c) (VMName c) (OutputDir c)
    (HTTPDir c) (HTTPPortMin c) v (BootCommand c) (BootWait c)
    (ShutdownCommand c) (ShutdownTimeout c) (SSHUser c) (SSHPassword c)
    (SSHWaitTimeout c) (VMXData c) (VNCPortMin c) (VNCPortMax c)
    (RawBootWait c) (RawShutdownTimeout c) (RawSSHWaitTimeout c).

Definition set_BootCommand (v : list string) (c : config) : config :=
  mkConfig (DiskName c) (GuestOSType c) (ISOUrl c) (VMName c) (OutputDir c)
    (HTTPDir c) (HTTPPortMin c) (HTTPPortMax c) v (BootWait c)
    (ShutdownCommand c) (ShutdownTimeout c) (SSHUser c) (SSHPassword c)
    (SSHWaitTimeout c) (VMXData c) (VNCPortMin c) (VNCPortMax c)
    (RawBootWait c) (RawShutdownTimeout c) (RawSSHWaitTimeout c).

Definition set_BootWait (v : Time.Duration) (c : config) : config :=
  mkConfig (DiskName c) (GuestOSType c) (ISOUrl c) (VMName c) (OutputDir c)
    (HTTPDir c) (HTTPPortMin c) (HTTPPortMax c) (BootCommand c) v
    (ShutdownCommand c) (ShutdownTimeout c) (SSHUser c) (SSHPassword c)
    (SSHWaitTimeout c) (VMXData c) (VNCPortMin c) (VNCPortMax c)
    (RawBootWait c) (RawShutdownTimeout c) (RawSSHWaitTimeout c).

Definition set_ShutdownCommand (v : string) (c : config) : config :=
  mkConfig (DiskName c) (GuestOSType c) (ISOUrl c) (VMName c) (OutputDir c)
    (HTTPDir c) (HTTPPortMin c) (HTTPPortMax c) (BootCommand c) (BootWait c)
    v (ShutdownTimeout c) (SSHUser c) (SSHPassword c) (SSHWaitTimeout c)
    (VMXData c) (VNCPortMin c) (VNCPortMax c) (RawBootWait c)
    (RawShutdownTimeout c) (RawSSHWaitTimeout c).

Definition set_ShutdownTimeout (v : Time.Duration) (c : config) : config :=
  mkConfig (DiskName c) (GuestOSType c) (ISOUrl c) (VMName c) (OutputDir c)
    (HTTPDir c) (HTTPPortMin c) (HTTPPortMax c) (BootCommand c) (BootWait c)
    (ShutdownCommand c) v (SSHUser c) (SSHPassword c) (SSHWaitTimeout c)
    (VMXData c) (VNCPortMin c) (VNCPortMax c) (RawBootWait c)
    (RawShutdownTimeout c) (RawSSHWaitTimeout c).

Definition set_SSHUser (v : string) (c : config) : config :=
  mkConfig (DiskName c) (GuestOSType c) (ISOUrl c) (VMName c) (OutputDir c)
    (HTTPDir c) (HTTPPortMin c) (HTTPPortMax c) (BootCommand c) (BootWait c)
    (ShutdownCommand c) (ShutdownTimeout c) v (SSHPassword c)
    (SSHWaitTimeout c) (VMXData c) (VNCPortMin c) (VNCPortMax c)
    (RawBootWait c) (RawShutdownTimeout c) (RawSSHWaitTimeout c).

Definition set_SSHPassword (v : string) (c : config) : config :=
  mkConfig (DiskName c) (GuestOSType c) (ISOUrl c) (VMName c) (OutputDir c)
    (HTTPDir c) (HTTPPortMin c) (HTTPPortMax c) (BootCommand c) (BootWait c)
    (ShutdownCommand c) (ShutdownTimeout c) (SSHUser c) v (SSHWaitTimeout c)
    (VMXData c) (VNCPortMin c) (VNCPortMax c) (RawBootWait c)
    (RawShutdownTimeout c) (RawSSHWaitTimeout c).

Definition set_SSHWaitTimeout (v : Time.Duration) (c : config) : config :=
  mkConfig (DiskName c) (GuestOSType c) (ISOUrl c) (VMName c) (OutputDir c)
    (HTTPDir c) (HTTPPortMin c) (HTTPPortMax c) (BootCommand c) (BootWait c)
    (ShutdownCommand c) (ShutdownTimeout c) (SSHUser c) (SSHPassword c) v
    (VMXData c) (VNCPortMin c) (VNCPortMax c) (RawBootWait c)
    (RawShutdownTimeout c) (RawSSHWaitTimeout c).

Definition set_VMXData (v : gmap string string) (c : config) : config :=
  mkConfig (DiskName c) (GuestOSType c) (ISOUrl c) (VMName c) (OutputDir c)
    (HTTPDir c) (HTTPPortMin c) (HTTPPortMax c) (BootCommand c) (BootWait c)
    (ShutdownCommand c) (ShutdownTimeout c) (SSHUser c) (SSHPassword c)
    (SSHWaitTimeout c) v (VNCPortMin c) (VNCPortMax c) (RawBootWait c)
    (RawShutdownTimeout c) (RawSSHWaitTimeout c).

Definition set_VNCPortMin (v : N) (c : config) : config :=
  mkConfig (DiskName c) (GuestOSType c) (ISOUrl c) (VMName c) (OutputDir c)
    (HTTPDir c) (HTTPPortMin c) (HTTPPortMax c) (BootCommand c) (BootWait c)
    (ShutdownCommand c) (ShutdownTimeout c) (SSHUser c) (SSHPassword c)
    (SSHWaitTimeout c) (VMXData c) v (VNCPortMax c) (RawBootWait c)
    (RawShutdownTimeout c) (RawSSHWaitTimeout c).

Definition set_VNCPortMax (v : N) (c : config) : config :=
  mkConfig (DiskName c) (GuestOSType c) (ISOUrl c) (VMName c) (OutputDir c)
    (HTTPDir c) (HTTPPortMin c) (HTTPPortMax c) (BootCommand c) (BootWait c)
    (ShutdownCommand c) (ShutdownTimeout c) (SSHUser c) (SSHPassword c)
    (SSHWaitTimeout c) (VMXData c) (VNCPortMin c) v (RawBootWait c)
    (RawShutdownTimeout c) (RawSSHWaitTimeout c).

Definition set_RawBootWait (v : string) (c : config) : config :=
  mkConfig (DiskName c) (GuestOSType c) (ISOUrl c) (VMName c) (OutputDir c)
    (HTTPDir c) (HTTPPortMin c) (HTTPPortMax c) (BootCommand c) (BootWait c)
    (ShutdownCommand c) (ShutdownTimeout c) (SSHUser c) (SSHPassword c)
    (SSHWaitTimeout c) (VMXData c) (VNCPortMin c) (VNCPortMax c) v
    (RawShutdownTimeout c) (RawSSHWaitTimeout c).

Definition set_RawShutdownTimeout (v : string) (c : config) : config :=
  mkConfig (DiskName c) (GuestOSType c) (ISOUrl c) (VMName c) (OutputDir c)
    (HTTPDir c) (HTTPPortMin c) (HTTPPortMax c) (BootCommand c) (BootWait c)
    (ShutdownCommand c) (ShutdownTimeout c) (SSHUser c) (SSHPassword c)
    (SSHWaitTimeout c) (VMXData c) (VNCPortMin c) (VNCPortMax c)
    (RawBootWait c) v (RawSSHWaitTimeout c).

Definition set_RawSSHWaitTimeout (v : string) (c : config) : config :=
  mkConfig (DiskName c) (GuestOSType c) (ISOUrl c) (VMName c) (OutputDir c)
    (HTTPDir c) (HTTPPortMin c) (HTTPPortMax c) (BootCommand c) (BootWait c)
    (ShutdownCommand c) (ShutdownTimeout c) (SSHUser c) (SSHPassword c)
    (SSHWaitTimeout c) (VMXData c) (VNCPortMin c) (VNCPortMax c)
    (RawBootWait c) (RawShutdownTimeout c) v.

(** The driver: Fusion 5 is the only implementation the builder creates; it
    holds the path of the application bundle. *)
Inductive Driver : Type :=
| Fusion5Driver (AppPath : string).

(** The steps of the pipeline, by the name of their Go type. *)
Inductive Step : Type :=
| stepPrepareOutputDir | stepCreateDisk | stepCreateVMX | stepHTTPServer
| stepConfigureVNC | stepRun | stepTypeBootCommand | stepWaitForSSH
| stepProvision | stepShutdown.

(** [multistep.BasicRunner]: the steps it was built with, and the flag its
    [Cancel] raises for the loop of its [Run] to see. *)
Record BasicRunner : Type := mkBasicRunner {
  Steps : list Step;
  cancelRequested : bool
}.

(** [Builder]: the three fields of the Go struct.  [driver] and [runner] are
    interface values, [None] when nil. *)
Record Builder : Type := mkBuilder {
  b_config : config;
  b_driver : option Driver;
  b_runner : option BasicRunner
}.

(** ** Shorthands for the statements

    A text or a port with its default, the error a failed check appends, the
    error a failed call appends, one conditional assignment. *)

Definition orDefault (v dflt : string) : string :=
  if String.eqb v "" then dflt else v.

Definition orPort (v dflt : N) : N := if (v =? 0)%N then dflt else v.

Definition guard (b : bool) (msg : string) : list error :=
  if b then [errorString msg] else [].

Definition errOf (prefix : string) (err : option string) : list error :=
  match err with
  | Some e => [errorString (prefix +:+ e)]
  | None => []
  end.

Definition when (cond : config -> bool) (assign : config -> config)
  (c : config) : config :=
  if cond c then assign c else c.

(** ** [Builder.Prepare] and [Builder.newDriver] *)

Section Prepare.

(** What [Prepare] is given: the raw configuration, an [interface{}]. *)
Variable Raw : Type.

(** [mapstructure.Decode raw &b.config]: the struct after the call, and the
    error if there is one. *)
Variable Decode : Raw -> config -> config * option string.

(** [Fusion5Driver.Verify]: the error it finds on this machine, if any. *)
Variable Verify : Driver -> option string.

Definition fusionAppPath : string := "/Applications/VMware Fusion.app".

Definition newDriver : option Driver * option string :=
  let driver := Fusion5Driver fusionAppPath in
  match Verify driver with
  | Some err => (None, Some err)
  | None => (Some driver, None)
  end.

(** Lines 55 to 85: the defaults of the fields left at their zero value. *)
Definition Prepare_defaults (c : config) : config :=
  let c := if String.eqb (DiskName c) "" then set_DiskName "disk" c else c in
  let c :=
    if String.eqb (GuestOSType c) "" then set_GuestOSType "other" c else c in
  let c := if String.eqb (VMName c) "" then set_VMName "packer" c else c in
  let c := if (HTTPPortMin c =? 0)%N then set_HTTPPortMin 8000%N c else c in
  let c := if (HTTPPortMax c =? 0)%N then set_HTTPPortMax 9000%N c else c in
  let c := if (VNCPortMin c =? 0)%N then set_VNCPortMin 5900%N c else c in
  let c := if (VNCPortMax c =? 0)%N then set_VNCPortMax 6000%N c else c in
  let c := if String.eqb (OutputDir c) "" then set_OutputDir "vmware" c else c in
  c.

(** [errs = append(errs, fmt.Errorf(format, err))] under [if err != nil],
    with [format] a [prefix] followed by [%s]. *)
Definition appendErr (prefix : string) (err : option string)
  (errs : list error) : list error :=
  match err with
  | Some e => errs ++ [errorString (prefix +:+ e)]
  | None => errs
  end.

(** Lines 87 to 129: the checks, every failure appended to [errs], and the
    durations parsed into the configuration on the way. *)
Definition Prepare_validate (c : config) : config * list error :=
  let errs : list error := [] in
  let errs :=
    if (HTTPPortMax c <? HTTPPortMin c)%N
    then errs ++ [errorString "http_port_min must be less than http_port_max"]
    else errs in
  let errs :=
    if String.eqb (ISOUrl c) ""
    then errs ++ [errorString "An iso_url must be specified."]
    else errs in
  let errs :=
    if String.eqb (SSHUser c) ""
    then errs ++ [errorString "An ssh_username must be specified."]
    else errs in
  let '(c, errs) :=
    if negb (String.eqb (RawBootWait c) "") then
      let '(d, err) := Time.ParseDuration (RawBootWait c) in
      (set_BootWait d c, appendErr "Failed parsing boot_wait: " err errs)
    else (c, errs) in
  let c :=
    if String.eqb (RawShutdownTimeout c) ""
    then set_RawShutdownTimeout "5m" c else c in
  let '(d, err) := Time.ParseDuration (RawShutdownTimeout c) in
  let c := set_ShutdownTimeout d c in
  let errs := appendErr "Failed parsing shutdown_timeout: " err errs in
  let c :=
    if String.eqb (RawSSHWaitTimeout c) ""
    then set_RawSSHWaitTimeout "20m" c else c in
  let '(d, err) := Time.ParseDuration (RawSSHWaitTimeout c) in
  let c := set_SSHWaitTimeout d c in
  let errs := appendErr "Failed parsing ssh_wait_timeout: " err errs in
  let errs :=
    if (VNCPortMax c <? VNCPortMin c)%N
    then errs ++ [errorString "vnc_port_min must be less than vnc_port_max"]
    else errs in
  (c, errs).

(** [Prepare]: the builder after the call and the error returned ([None] is
    nil).  A failed decoding returns at once; otherwise the defaults, the
    checks and the driver follow, and the errors gathered, if any, come back
    as one [MultiError]. *)
Definition Prepare (b : Builder) (raw : Raw) : Builder * option error :=
  let '(c, err) := Decode raw (b_config b) in
  match err with
  | Some e => (mkBuilder c (b_driver b) (b_runner b), Some (errorString e))
  | None =>
      let c := Prepare_defaults c in
      let '(c, errs) := Prepare_validate c in
      let '(driver, err) := newDriver in
      let errs := appendErr "Failed creating VMware driver: " err errs in
      let b := mkBuilder c driver (b_runner b) in
      if (0 <? length errs)%nat then (b, Some (MultiError errs))
      else (b, None)
  end.

(** The errors [Prepare] gathers on the decoded configuration [c0]. *)
Definition violations (c0 : config) : list error :=
  (Prepare_validate (Prepare_defaults c0)).2
  ++ errOf "Failed creating VMware driver: "
       (Verify (Fusion5Driver fusionAppPath)).

End Prepare.

Arguments Prepare {Raw} Decode Verify b raw.

(** The errors of a prepared configuration [c], in the order [Prepare]
    makes its checks: the HTTP range, the ISO URL, the SSH user, the three
    durations, the VNC range, the driver. *)
Definition reported (Verify : Driver -> option string) (c : config)
  : list error :=
  guard (HTTPPortMax c <? HTTPPortMin c)%N
    "http_port_min must be less than http_port_max"
  ++ guard (String.eqb (ISOUrl c) "") "An iso_url must be specified."
  ++ guard (String.eqb (SSHUser c) "") "An ssh_username must be specified."
  ++ (if String.eqb (RawBootWait c) "" then []
      else errOf "Failed parsing boot_wait: "
             (Time.ParseDuration (RawBootWait c)).2)
  ++ errOf "Failed parsing shutdown_timeout: "
       (Time.ParseDuration (RawShutdownTimeout c)).2
  ++ errOf "Failed parsing ssh_wait_timeout: "
       (Time.ParseDuration (RawSSHWaitTimeout c)).2
  ++ guard (VNCPortMax c <? VNCPortMin c)%N
       "vnc_port_min must be less than vnc_port_max"
  ++ errOf "Failed creating VMware driver: "
       (Verify (Fusion5Driver fusionAppPath)).

(** ** The world a build runs in *)

(** The file system as [filepath.Walk] sees it.  A name is a directory or
    something else; a directory lists its entries in the order [readDir]
    returns them, which is by name, or fails to be read with an error. *)
Inductive Node : Type :=
| File
| Dir (entries : list (string * Node))
| DirUnreadable (err : string).

Definition isDir (n : Node) : bool :=
  match n with
  | File => false
  | Dir _ | DirUnreadable _ => true
  end.

(** [os.FileInfo], as far as [Walk] and its callers ask: [IsDir]. *)
Record FileInfo : Type := mkFileInfo { IsDir : bool }.

(** [packer.Ui] and [packer.Hook] are handles on the host's side. *)
Inductive Ui : Type := UiHandle (id : nat).
Inductive Hook : Type := HookHandle (id : nat).

Inductive UiMessage : Type :=
| UiSay (msg : string)
| UiError (msg : string).

(** The world: the trees found at the paths the build names, what the UI
    sinks have been sent, the process log, the clock, the seed of
    [math/rand], and the loop check of the runner before which a [Cancel]
    called from another goroutine lands, if one does. *)
Record World : Type := mkWorld {
  fs : gmap string Node;
  ui_out : list (Ui * UiMessage);
  log_out : list string;
  clock : Z;
  rand_seed : Z;
  cancel_at : option nat
}.

Definition set_fs (v : gmap string Node) (w : World) : World :=
  mkWorld v (ui_out w) (log_out w) (clock w) (rand_seed w) (cancel_at w).

Definition ui_Error (ui : Ui) (msg : string) (w : World) : World :=
  mkWorld (fs w) (ui_out w ++ [(ui, UiError msg)]) (log_out w) (clock w)
    (rand_seed w) (cancel_at w).

Definition ui_Say (ui : Ui) (msg : string) (w : World) : World :=
  mkWorld (fs w) (ui_out w ++ [(ui, UiSay msg)]) (log_out w) (clock w)
    (rand_seed w) (cancel_at w).

Definition log_Println (msg : string) (w : World) : World :=
  mkWorld (fs w) (ui_out w) (log_out w ++ [msg]) (clock w) (rand_seed w)
    (cancel_at w).

Definition rand_Seed (seed : Z) (w : World) : World :=
  mkWorld (fs w) (ui_out w) (log_out w) (clock w) seed (cancel_at w).

(** ** [filepath.Walk] *)

Module Filepath.

(** The errors of a walk: [SkipDir], which [Walk] compares by identity, and
    any other, by its message. *)
Inductive WalkError : Type :=
| SkipDir
| Failed (msg : string).

Definition isSkipDir (e : WalkError) : bool :=
  match e with
  | SkipDir => true
  | Failed _ => false
  end.

Definition Error (e : WalkError) : string :=
  match e with
  | SkipDir => "skip this directory"
  | Failed msg => msg
  end.

Section Walk.

(** [filepath.Join] of a directory and a name. *)
Variable Join : string -> string -> string.

(** What the walk function accumulates (the variables its closure holds). *)
Context {S : Type}.

Definition WalkFunc : Type :=
  string -> option FileInfo -> option WalkError -> S -> option WalkError * S.

(** [walk] descends [path], whose tree is [n]: the function is called on the
    path first, then, for a directory, on its entries in order, or once more
    with the error when the directory cannot be read. *)
Fixpoint walk (path : string) (n : Node) (walkFn : WalkFunc) (s : S)
  {struct n} : option WalkError * S :=
  let info := mkFileInfo (isDir n) in
  let '(err, s) := walkFn path (Some info) None s in
  match err with
  | Some e =>
      if IsDir info && isSkipDir e then (None, s) else (Some e, s)
  | None =>
      match n with
      | File => (None, s)
      | DirUnreadable e => walkFn path (Some info) (Some (Failed e)) s
      | Dir entries =>
          (fix each (l : list (string * Node)) (s : S)
             : option WalkError * S :=
             match l with
             | [] => (None, s)
             | (name, child) :: l' =>
                 let '(err, s) := walk (Join path name) child walkFn s in
                 match err with
                 | Some e =>
                     if negb (isDir child) || negb (isSkipDir e)
                     then (Some e, s)
                     else each l' s
                 | None => each l' s
                 end
             end) entries s
      end
  end.

(** [Walk root walkFn]: [Lstat] of the root, whose failure goes to the
    function with no [FileInfo]; otherwise the descent. *)
Definition Walk (files : gmap string Node) (root : string)
  (walkFn : WalkFunc) (s : S) : option WalkError * S :=
  match files !! root with
  | None =>
      walkFn root None
        (Some (Failed ("lstat " +:+ root +:+ ": no such file or directory")))
        s
  | Some n => walk root n walkFn s
  end.

End Walk.

End Filepath.

(** A tree all of whose directories can be read. *)
Fixpoint readable (n : Node) : bool :=
  match n with
  | File => true
  | DirUnreadable _ => false
  | Dir entries => forallb (fun e : string * Node => readable e.2) entries
  end.

(** Every path of the tree [n] found at [path], directories and [path]
    itself included, each directory before what it holds. *)
Fixpoint paths (Join : string -> string -> string) (path : string)
  (n : Node) : list string :=
  path ::
  match n with
  | Dir entries =>
      flat_map (fun e : string * Node => paths Join (Join path e.1) e.2)
        entries
  | File | DirUnreadable _ => []
  end.

(** ** The execution context and the runner *)

(** The values the state bag holds.  [VConfig] is the pointer [&b.config]:
    the configuration itself is the cell [m_config] below, so that what a
    step writes through the pointer is what the builder reads afterwards. *)
Inductive Value : Type :=
| VConfig
| VDriver (d : option Driver)
| VHook (h : Hook)
| VUi (u : Ui)
| VBool (b : bool)
| VString (s : string)
| VUint (n : N).

(** What a step can reach: the builder's configuration through the pointer
    in the bag, the bag itself, the fields of the step objects ([m_scratch],
    by name), and the world. *)
Record Machine : Type := mkMachine {
  m_config : config;
  m_state : gmap string Value;
  m_scratch : gmap string Value;
  m_world : World
}.

Definition set_m_state (st : gmap string Value) (m : Machine) : Machine :=
  mkMachine (m_config m) st (m_scratch m) (m_world m).

Definition set_m_world (w : World) (m : Machine) : Machine :=
  mkMachine (m_config m) (m_state m) (m_scratch m) w.

Inductive StepAction : Type := ActionContinue | ActionHalt.

(** The keys of the two markers, [multistep.StateCancelled] and
    [multistep.StateHalted]. *)
Definition StateCancelled : string := "cancelled".
Definition StateHalted : string := "halted".

(** [_, ok := state[key]]. *)
Definition has_key (key : string) (st : gmap string Value) : bool :=
  bool_decide (is_Some (st !! key)).

Definition mark (key : string) (m : Machine) : Machine :=
  set_m_state (<[key := VBool true]> (m_state m)) m.

(** [BasicRunner.Cancel].
    Modelled from the spec: the runner is the library multistep, outside
    this repository; its [cancel()] only raises the flag that marks the
    context cancelled at the next check of the loop. *)
Definition BasicRunner_Cancel (r : BasicRunner) : BasicRunner :=
  mkBasicRunner (Steps r) true.

(** [Artifact]: the directory and the files, in the order of the literal
    [&Artifact{b.config.OutputDir, files}]. *)
Record Artifact : Type := mkArtifact {
  artifact_dir : string;
  artifact_files : list string
}.

Section Runner.

(** The steps are of this repository but not of this file: their [Run] and
    [Cleanup] are taken as they come. *)
Variable runStep : Step -> Machine -> StepAction * Machine.
Variable cleanupStep : Step -> Machine -> Machine.

(** The forward pass of [BasicRunner.Run], from check number [i] on, with
    the stack of the steps executed so far (the last one first).
    Modelled from the spec: for each step in order, if the context is
    already cancelled or halted, stop advancing; otherwise run the step and
    push it whatever its outcome; if it signals a fatal condition, mark the
    context halted and stop advancing.  A [Cancel] from another goroutine
    lands between two steps, before the check [cancel_at] names. *)
Fixpoint advance (steps : list Step) (i : nat) (r : BasicRunner)
  (m : Machine) (executed : list Step)
  : BasicRunner * Machine * list Step :=
  match steps with
  | [] => (r, m, executed)
  | step :: rest =>
      let r :=
        if bool_decide (cancel_at (m_world m) = Some i)
        then BasicRunner_Cancel r else r in
      let m := if cancelRequested r then mark StateCancelled m else m in
      if has_key StateCancelled (m_state m) || has_key StateHalted (m_state m)
      then (r, m, executed)
      else
        let '(action, m) := runStep step m in
        let executed := step :: executed in
        match action with
        | ActionHalt => (r, mark StateHalted m, executed)
        | ActionContinue => advance rest (S i) r m executed
        end
  end.

(** The backward pass: the cleanup of every executed step, the last first. *)
Definition cleanup (executed : list Step) (m : Machine) : Machine :=
  foldl (fun m step => cleanupStep step m) m executed.

(** [BasicRunner.Run state]: the runner and the machine afterwards, and the
    steps that were run, in the order they ran. *)
Definition BasicRunner_Run (r : BasicRunner) (m : Machine)
  : BasicRunner * Machine * list Step :=
  let '(r, m, executed) := advance (Steps r) 0 r m [] in
  (r, cleanup executed m, rev executed).

(** ** [Builder.Run] and [Builder.Cancel] *)

Variable Join : string -> string -> string.

(** The closure [visit] of [Run], over its variable [files]. *)
Definition visit : @Filepath.WalkFunc (list string) :=
  fun path info err files => (err, files ++ [path]).

(** Lines 144 to 169 of [Run]: the seed, the steps, the state bag, the
    runner.  The builder with its new runner, the machine the runner leaves,
    and the steps that ran. *)
Definition Run_pipeline (b : Builder) (ui : Ui) (hook : Hook) (w : World)
  : Builder * Machine * list Step :=
  let w := rand_Seed (clock w) w in
  let steps :=
    [ stepPrepareOutputDir; stepCreateDisk; stepCreateVMX; stepHTTPServer;
      stepConfigureVNC; stepRun; stepTypeBootCommand; stepWaitForSSH;
      stepProvision; stepShutdown ] in
  let state : gmap string Value := ∅ in
  let state := <["config" := VConfig]> state in
  let state := <["driver" := VDriver (b_driver b)]> state in
  let state := <["hook" := VHook hook]> state in
  let state := <["ui" := VUi ui]> state in
  let r := mkBasicRunner steps false in
  let '(r, m, ran) := BasicRunner_Run r (mkMachine (b_config b) state ∅ w) in
  (mkBuilder (m_config m) (b_driver b) (Some r), m, ran).

(** [Run]: the artifact ([None] is nil), the builder and the world after. *)
Definition Run (b : Builder) (ui : Ui) (hook : Hook) (w : World)
  : option Artifact * Builder * World :=
  let '(b, m, _) := Run_pipeline b ui hook w in
  let state := m_state m in
  let w := m_world m in
  if has_key StateCancelled state then (None, b, w)
  else if has_key StateHalted state then (None, b, w)
  else
    let files : list string := [] in
    let '(err, files) :=
      Filepath.Walk Join (fs w) (OutputDir (b_config b)) visit files in
    match err with
    | Some err =>
        let w :=
          ui_Error ui
            ("Error collecting result files: " +:+ Filepath.Error err) w in
        (None, b, w)
    | None => (Some (mkArtifact (OutputDir (b_config b)) files), b, w)
    end.

End Runner.

(** [Cancel]: nothing without a runner; with one, a line in the log and the
    runner's own [Cancel]. *)
Definition Cancel (b : Builder) (w : World) : Builder * World :=
  match b_runner b with
  | Some r =>
      let w := log_Println "Cancelling the step runner..." w in
      (mkBuilder (b_config b) (b_driver b) (Some (BasicRunner_Cancel r)), w)
  | None => (b, w)
  end.

(** ** A host to run the builder against

    A decoder for raw configurations that are flat maps, a machine on which
    Fusion is installed (or not), steps that all succeed, and the plain
    joining of a clean directory and a name: what the examples below
    evaluate the builder on. *)

Module Host.

(** The values of a raw configuration. *)
Inductive RawValue : Type :=
| RString (s : string)
| RUint (n : N)
| RStrings (l : list string)
| RMap (m : gmap string string).

(** How an option is stored: its field, by the kind of value it takes. *)
Inductive FieldSetter : Type :=
| SetString (set : string -> config -> config)
| SetUint (set : N -> config -> config)
| SetStrings (set : list string -> config -> config)
| SetMap (set : gmap string string -> config -> config).

(** The [mapstructure] tags of [config], in the order of its fields. *)
Definition fieldTable : list (string * FieldSetter) :=
  [ ("vmdk_name", SetString set_DiskName);
    ("guest_os_type", SetString set_GuestOSType);
    ("iso_url", SetString set_ISOUrl);
    ("vm_name", SetString set_VMName);
    ("output_directory", SetString set_OutputDir);
    ("http_directory", SetString set_HTTPDir);
    ("http_port_min", SetUint set_HTTPPortMin);
    ("http_port_max", SetUint set_HTTPPortMax);
    ("boot_command", SetStrings set_BootCommand);
    ("shutdown_command", SetString set_ShutdownCommand);
    ("ssh_username", SetString set_SSHUser);
    ("ssh_password", SetString set_SSHPassword);
    ("vmx_data", SetMap set_VMXData);
    ("vnc_port_min", SetUint set_VNCPortMin);
    ("vnc_port_max", SetUint set_VNCPortMax);
    ("boot_wait", SetString set_RawBootWait);
    ("shutdown_timeout", SetString set_RawShutdownTimeout);
    ("ssh_wait_timeout", SetString set_RawSSHWaitTimeout) ].

Definition decodeField (key : string) (setter : FieldSetter) (v : RawValue)
  (c : config) : config * option string :=
  match setter, v with
  | SetString set, RString s => (set s c, None)
  | SetUint set, RUint n => (set n c, None)
  | SetStrings set, RStrings l => (set l c, None)
  | SetMap set, RMap m => (set m c, None)
  | _, _ => (c, Some ("'" +:+ key +:+ "' has a value of the wrong type"))
  end.

(** Every option present in the map is stored in its field; an option that
    is absent leaves the field as it was; the first value of the wrong kind
    stops the decoding with an error. *)
Fixpoint decodeFields (table : list (string * FieldSetter))
  (raw : gmap string RawValue) (c : config) : config * option string :=
  match table with
  | [] => (c, None)
  | (key, setter) :: table' =>
      match raw !! key with
      | None => decodeFields table' raw c
      | Some v =>
          match decodeField key setter v c with
          | (c, None) => decodeFields table' raw c
          | (c, Some e) => (c, Some e)
          end
      end
  end.

Definition Decode (raw : gmap string RawValue) (c : config)
  : config * option string :=
  decodeFields fieldTable raw c.

(** Fusion is installed, or is not. *)
Definition VerifyOk (d : Driver) : option string := None.

Definition VerifyMissing (d : Driver) : option string :=
  match d with
  | Fusion5Driver path => Some ("Fusion application not found: " +:+ path)
  end.

(** Steps that succeed and leave the machine as it is; steps of which the
    disk creation halts. *)
Definition runStepOk (step : Step) (m : Machine) : StepAction * Machine :=
  (ActionContinue, m).

Definition runStepDiskFails (step : Step) (m : Machine)
  : StepAction * Machine :=
  match step with
  | stepCreateDisk => (ActionHalt, m)
  | _ => (ActionContinue, m)
  end.

Definition cleanupStepNone (step : Step) (m : Machine) : Machine := m.

(** [filepath.Join] on a clean directory and a plain name. *)
Definition Join (dir name : string) : string := dir +:+ "/" +:+ name.

(** A builder just allocated. *)
Definition newBuilder : Builder := mkBuilder config_zero None None.

(** A raw configuration with what [Prepare] requires and nothing else. *)
Definition rawMinimal : gmap string RawValue :=
  <["iso_url" := RString "http://example.com/os.iso"]>
    (<["ssh_username" := RString "packer"]> ∅).

(** The output directory [d] holding the file [a] and the directory [b]
    with the file [c] in it. *)
Definition treeD : Node := Dir [("a", File); ("b", Dir [("c", File)])].

Definition world0 (files : gmap string Node) : World :=
  mkWorld files [] [] 1370000000000000000 0 None.

(** Raw configurations: ports the wrong way round with nothing else right,
    a negative boot wait, a port set to 0, the output directory [d]. *)
Definition rawInverted : gmap string RawValue :=
  <["http_port_min" := RUint 9500]> (<["boot_wait" := RString "soon"]> ∅).


Definition rawPortZero : gmap string RawValue :=
  <["http_port_min" := RUint 0]> rawMinimal.

Definition rawOutputD : gmap string RawValue :=
  <["output_directory" := RString "d"]> rawMinimal.

(** Builders prepared and not yet run. *)
Definition prepared : Builder :=
  (Prepare Decode VerifyOk newBuilder rawMinimal).1.

Definition preparedD : Builder :=
  (Prepare Decode VerifyOk newBuilder rawOutputD).1.

Definition ui0 : Ui := UiHandle 0.
Definition hook0 : Hook := HookHandle 0.

(** Worlds: [d] as above; the default output directory with a disk and a
    descriptor; no output directory; [d] with a [Cancel] from another
    goroutine landing before the fourth step. *)
Definition worldD : World := world0 {["d" := treeD]}.

Definition worldVmware : World :=
  world0 {["vmware" := Dir [("disk.vmdk", File); ("packer.vmx", File)]]}.


Definition worldCancelled : World :=
  mkWorld {["d" := treeD]} [] [] 1370000000000000000 0 (Some 3%nat).

(** More raw configurations: only the lower HTTP bound given, above the
    default of the upper one; both HTTP bounds equal; a shutdown timeout
    that does not parse; nothing at all. *)
Definition rawMinOnly : gmap string RawValue :=
  <["http_port_min" := RUint 9500]> rawMinimal.

Definition rawEqualPorts : gmap string RawValue :=
  <["http_port_min" := RUint 8500]>
    (<["http_port_max" := RUint 8500]> rawMinimal).


Definition rawEmpty : gmap string RawValue := ∅.

(** The five errors of [rawInverted] on a machine without Fusion. *)
Definition errsInverted : list error :=
  [ errorString "http_port_min must be less than http_port_max";
    errorString "An iso_url must be specified.";
    errorString "An ssh_username must be specified.";
    errorString "Failed parsing boot_wait: time: invalid duration soon";
    errorString
      ("Failed creating VMware driver: Fusion application not found: "
       +:+ "/Applications/VMware Fusion.app") ].

(** [d] with a directory that cannot be read. *)
Definition worldUnreadable : World :=
  world0
    {["d" := Dir [("a", File);
                  ("b", DirUnreadable "open d/b: permission denied")]]}.

End Host.

(** * Properties *)

(** ** The duration parser terminates, and the sign of what it returns *)

Module TimeFacts.
Import Time.


Lemma leadingInt_from_length x s v r :
  leadingInt_from x s = Some (v, r) -> (String.length r <= String.length s)%nat.
Proof.
  revert x. induction s as [|c s IH]; intros x H; simpl in H.
  - injection H as _ <-. done.
  - destruct (isDigit c).
    + destruct (x >? maxInt64 / 10); [done|].
      destruct (wrap64 (x * 10 + digitVal c) <? 0); [done|].
      apply IH in H. simpl. lia.
    + injection H as _ <-. done.
Qed.

Lemma leadingFraction_from_length x sc o s f sc' r :
  leadingFraction_from x sc o s = (f, sc', r) ->
  (String.length r <= String.length s)%nat.
Proof.
  revert x sc o. induction s as [|c s IH]; intros x sc o H; simpl in H.
  - injection H as _ _ <-. done.
  - destruct (isDigit c).
    + simpl. repeat case_match; apply IH in H; lia.
    + injection H as _ _ <-. done.
Qed.

Lemma unitSpan_length s u r :
  unitSpan s = (u, r) ->
  String.length s = (String.length u + String.length r)%nat.
Proof.
  revert u r. induction s as [|c s IH]; intros u r H; simpl in H.
  - injection H as <- <-. done.
  - destruct (isDot c || isDigit c).
    + injection H as <- <-. done.
    + destruct (unitSpan s) as [u' r'] eqn:E. injection H as <- <-.
      simpl. rewrite (IH _ _ eq_refl). done.
Qed.

Lemma parseLoop_fuel fuel orig s d :
  (String.length s <= fuel)%nat -> is_Some (parseLoop fuel orig s d).
Proof.
  revert s d. induction fuel as [|fuel IH]; intros s d Hlen.
  - destruct s; simpl in *; [eauto | lia].
  - destruct s as [|c0 s0]; [simpl; eauto|].
    cbn [parseLoop].
    destruct (negb (isDot c0 || isDigit c0)); [eauto|].
    destruct (leadingInt (String c0 s0)) as [[v s1]|] eqn:Hint; [|eauto].
    apply leadingInt_from_length in Hint.
    set (frac := match s1 with String c1 t => _ | EmptyString => _ end).
    assert (Hs2 : (String.length (frac.1.2) <= String.length s1)%nat).
    { subst frac. destruct s1 as [|c1 t]; [done|].
      destruct (isDot c1); [|done].
      destruct (leadingFraction t) as [[f sc] r] eqn:Hf.
      apply leadingFraction_from_length in Hf. simpl. lia. }
    destruct frac as [[[f scale] s2] post]. simpl in Hs2.
    destruct (negb _ && negb post); [eauto|].
    destruct (unitSpan s2) as [u s3] eqn:Hu.
    apply unitSpan_length in Hu.
    destruct u as [|cu u]; [eauto|].
    destruct (unitMap !! String cu u); [|eauto].
    repeat case_match; eauto; apply IH; simpl in *; lia.
Qed.


(** The call of [ParseDuration] never runs out of fuel. *)
Lemma ParseDuration_total orig s :
  parseLoop (String.length s) orig s 0 <> None.
Proof.
  intros H. destruct (parseLoop_fuel (String.length s) orig s 0 ltac:(lia)).
  congruence.
Qed.




End TimeFacts.

Example ParseDuration_5m : Time.ParseDuration "5m" = (5 * Time.Minute, None).
Proof. vm_compute. reflexivity. Qed.

Example ParseDuration_mixed :
  Time.ParseDuration "1h30m" = (90 * Time.Minute, None)
  /\ Time.ParseDuration "1.5h" = (90 * Time.Minute, None)
  /\ Time.ParseDuration "-300ms" = (-300 * Time.Millisecond, None)
  /\ Time.ParseDuration "0" = (0, None)
  /\ Time.ParseDuration "+.5s" = (500 * Time.Millisecond, None).
Proof. vm_compute. repeat split. Qed.

Example ParseDuration_rejects :
  Time.ParseDuration "" = (0, Some "time: invalid duration ")
  /\ Time.ParseDuration "5" = (0, Some "time: missing unit in duration 5")
  /\ Time.ParseDuration "5 minutes"
     = (0, Some "time: unknown unit  minutes in duration 5 minutes")
  /\ Time.ParseDuration "soon" = (0, Some "time: invalid duration soon")
  /\ Time.ParseDuration ".s" = (0, Some "time: invalid duration .s")
  /\ Time.ParseDuration "9223372036854775808ns"
     = (0, Some "time: invalid duration 9223372036854775808ns").
Proof. vm_compute. repeat split. Qed.

(** ** The blocks of [Prepare] in closed form *)

Lemma if_same {A} (b : bool) (x : A) : (if b then x else x) = x.
Proof. by destruct b. Qed.

Lemma if_append (b : bool) (errs : list error) (msg : string) :
  (if b then errs ++ [errorString msg] else errs) = errs ++ guard b msg.
Proof. destruct b; simpl; [done | by rewrite app_nil_r]. Qed.

Lemma if_append_l {A} (b : bool) (l l' : list A) :
  (if b then l ++ l' else l) = l ++ (if b then l' else []).
Proof. destruct b; [done | by rewrite app_nil_r]. Qed.

Lemma appendErr_errOf prefix err errs :
  appendErr prefix err errs = errs ++ errOf prefix err.
Proof. destruct err; simpl; [done | by rewrite app_nil_r]. Qed.

Lemma if_pair {A B} (b : bool) (x1 x2 : A) (y1 y2 : B) :
  (if b then (x1, y1) else (x2, y2))
  = (if b then x1 else x2, if b then y1 else y2).
Proof. by destruct b. Qed.

Lemma if_mkConfig (b : bool) a1 a2 a3 a4 a5 a6 a7 a8 a9 a10 a11 a12 a13 a14
  a15 a16 a17 a18 a19 a20 a21 b1 b2 b3 b4 b5 b6 b7 b8 b9 b10 b11 b12 b13 b14
  b15 b16 b17 b18 b19 b20 b21 :
  (if b
   then mkConfig a1 a2 a3 a4 a5 a6 a7 a8 a9 a10 a11 a12 a13 a14 a15 a16 a17
          a18 a19 a20 a21
   else mkConfig b1 b2 b3 b4 b5 b6 b7 b8 b9 b10 b11 b12 b13 b14 b15 b16 b17
          b18 b19 b20 b21)
  = mkConfig (if b then a1 else b1) (if b then a2 else b2)
      (if b then a3 else b3) (if b then a4 else b4) (if b then a5 else b5)
      (if b then a6 else b6) (if b then a7 else b7) (if b then a8 else b8)
      (if b then a9 else b9) (if b then a10 else b10) (if b then a11 else b11)
      (if b then a12 else b12) (if b then a13 else b13)
      (if b then a14 else b14) (if b then a15 else b15)
      (if b then a16 else b16) (if b then a17 else b17)
      (if b then a18 else b18) (if b then a19 else b19)
      (if b then a20 else b20) (if b then a21 else b21).
Proof. by destruct b. Qed.

(** Projections and assignments on a record written out; the [let]s stay. *)
Ltac fields :=
  cbv beta iota delta
    [set_DiskName set_GuestOSType set_VMName set_OutputDir set_HTTPPortMin
     set_HTTPPortMax set_VNCPortMin set_VNCPortMax
     set_BootWait set_RawShutdownTimeout set_ShutdownTimeout
     set_RawSSHWaitTimeout set_SSHWaitTimeout
     DiskName GuestOSType ISOUrl VMName OutputDir HTTPDir HTTPPortMin
     HTTPPortMax VNCPortMin VNCPortMax BootCommand BootWait ShutdownCommand
     ShutdownTimeout SSHUser SSHPassword SSHWaitTimeout VMXData RawBootWait
     RawShutdownTimeout RawSSHWaitTimeout].

Ltac fields_of t :=
  eval cbv beta iota delta
    [set_DiskName set_GuestOSType set_VMName set_OutputDir set_HTTPPortMin
     set_HTTPPortMax set_VNCPortMin set_VNCPortMax
     set_BootWait set_RawShutdownTimeout set_ShutdownTimeout
     set_RawSSHWaitTimeout set_SSHWaitTimeout
     DiskName GuestOSType ISOUrl VMName OutputDir HTTPDir HTTPPortMin
     HTTPPortMax VNCPortMin VNCPortMax BootCommand BootWait ShutdownCommand
     ShutdownTimeout SSHUser SSHPassword SSHWaitTimeout VMXData RawBootWait
     RawShutdownTimeout RawSSHWaitTimeout]
  in t.

(** The first statement of a chain of [let]s goes into the rest. *)
Ltac next :=
  lazymatch goal with
  | |- (let x := ?v in @?body x) = ?rhs => change (body v = rhs); fields
  end.

Lemma Prepare_defaults_when c :
  Prepare_defaults c =
  when (fun c => String.eqb (OutputDir c) "") (set_OutputDir "vmware")
    (when (fun c => (VNCPortMax c =? 0)%N) (set_VNCPortMax 6000%N)
    (when (fun c => (VNCPortMin c =? 0)%N) (set_VNCPortMin 5900%N)
    (when (fun c => (HTTPPortMax c =? 0)%N) (set_HTTPPortMax 9000%N)
    (when (fun c => (HTTPPortMin c =? 0)%N) (set_HTTPPortMin 8000%N)
    (when (fun c => String.eqb (VMName c) "") (set_VMName "packer")
    (when (fun c => String.eqb (GuestOSType c) "") (set_GuestOSType "other")
    (when (fun c => String.eqb (DiskName c) "") (set_DiskName "disk")
       c))))))).
Proof. reflexivity. Qed.

(** The innermost conditional assignment, on a record written out: both
    outcomes of its condition. *)
Ltac when_step :=
  match goal with
  | |- context [when ?cond ?assign ?c] =>
      lazymatch c with
      | context [when] => fail
      | _ =>
          let b := fields_of (cond c) in
          change (when cond assign c) with (if b then assign c else c);
          destruct b eqn:?; fields
      end
  end.

Lemma Prepare_defaults_fields c :
  Prepare_defaults c =
  mkConfig (orDefault (DiskName c) "disk") (orDefault (GuestOSType c) "other")
    (ISOUrl c) (orDefault (VMName c) "packer")
    (orDefault (OutputDir c) "vmware") (HTTPDir c)
    (orPort (HTTPPortMin c) 8000) (orPort (HTTPPortMax c) 9000)
    (BootCommand c) (BootWait c) (ShutdownCommand c) (ShutdownTimeout c)
    (SSHUser c) (SSHPassword c) (SSHWaitTimeout c) (VMXData c)
    (orPort (VNCPortMin c) 5900) (orPort (VNCPortMax c) 6000)
    (RawBootWait c) (RawShutdownTimeout c) (RawSSHWaitTimeout c).
Proof.
  rewrite Prepare_defaults_when. destruct c.
  unfold orDefault, orPort. fields.
  repeat when_step; reflexivity.
Qed.

Lemma Prepare_validate_fields c :
  let boot := Time.ParseDuration (RawBootWait c) in
  let rawShut := orDefault (RawShutdownTimeout c) "5m" in
  let rawSSH := orDefault (RawSSHWaitTimeout c) "20m" in
  let shut := Time.ParseDuration rawShut in
  let ssh := Time.ParseDuration rawSSH in
  Prepare_validate c =
  (mkConfig (DiskName c) (GuestOSType c) (ISOUrl c) (VMName c) (OutputDir c)
     (HTTPDir c) (HTTPPortMin c) (HTTPPortMax c) (BootCommand c)
     (if String.eqb (RawBootWait c) "" then BootWait c else boot.1)
     (ShutdownCommand c) (shut.1) (SSHUser c) (SSHPassword c) (ssh.1)
     (VMXData c) (VNCPortMin c) (VNCPortMax c) (RawBootWait c) rawShut rawSSH,
   guard (HTTPPortMax c <? HTTPPortMin c)%N
     "http_port_min must be less than http_port_max"
   ++ guard (String.eqb (ISOUrl c) "") "An iso_url must be specified."
   ++ guard (String.eqb (SSHUser c) "") "An ssh_username must be specified."
   ++ (if String.eqb (RawBootWait c) "" then []
       else errOf "Failed parsing boot_wait: " boot.2)
   ++ errOf "Failed parsing shutdown_timeout: " shut.2
   ++ errOf "Failed parsing ssh_wait_timeout: " ssh.2
   ++ guard (VNCPortMax c <? VNCPortMin c)%N
        "vnc_port_min must be less than vnc_port_max").
Proof.
  intros boot rawShut rawSSH shut ssh. subst boot rawShut rawSSH shut ssh.
  destruct c. cbv beta delta [Prepare_validate orDefault]. fields.
  next. do 3 (rewrite if_append; next).
  destruct (Time.ParseDuration RawBootWait0) as [dBoot eBoot].
  cbv beta iota.
  rewrite if_pair, if_mkConfig, !if_same, appendErr_errOf, if_append_l.
  fields. rewrite if_mkConfig, !if_same. next.
  destruct (Time.ParseDuration _) as [dShut eShut].
  cbv beta iota. next. rewrite appendErr_errOf. next.
  rewrite if_mkConfig, !if_same. next.
  destruct (Time.ParseDuration (if (RawSSHWaitTimeout0 =? "")%string
                                then _ else _)) as [dSSH eSSH].
  cbv beta iota. next. rewrite appendErr_errOf. next.
  rewrite if_append. next.
  destruct (RawBootWait0 =? "")%string; simpl; rewrite <- ?app_assoc;
    reflexivity.
Qed.

(** ** [Prepare] *)

Section PrepareFacts.

Context {Raw : Type}.
Variable Decode : Raw -> config -> config * option string.
Variable Verify : Driver -> option string.

Lemma Prepare_decoded b raw c0 :
  Decode raw (b_config b) = (c0, None) ->
  Prepare Decode Verify b raw =
  (mkBuilder (Prepare_validate (Prepare_defaults c0)).1
     (match Verify (Fusion5Driver fusionAppPath) with
      | Some _ => None
      | None => Some (Fusion5Driver fusionAppPath)
      end)
     (b_runner b),
   match violations Verify c0 with
   | [] => None
   | _ :: _ => Some (MultiError (violations Verify c0))
   end).
Proof.
  intros Hdec. unfold Prepare, violations, newDriver. rewrite Hdec.
  destruct (Prepare_validate (Prepare_defaults c0)) as [c errs].
  destruct (Verify (Fusion5Driver fusionAppPath)) as [e|];
    cbn [appendErr errOf fst snd]; rewrite ?app_nil_r;
    [destruct (errs ++ _) eqn:E | destruct errs]; reflexivity.
Qed.

Lemma decoded_pair (raw : Raw) (c : config) :
  (Decode raw c).2 = None -> Decode raw c = ((Decode raw c).1, None).
Proof. destruct (Decode raw c) as [c0 e]. simpl. by intros ->. Qed.




Lemma elem_of_guard (b : bool) (msg : string) :
  b = true -> errorString msg ∈ guard b msg.
Proof. intros ->. apply list_elem_of_here. Qed.

Lemma violations_fields c0 :
  let c := Prepare_defaults c0 in
  let rawShut := orDefault (RawShutdownTimeout c) "5m" in
  let rawSSH := orDefault (RawSSHWaitTimeout c) "20m" in
  violations Verify c0 =
  guard (HTTPPortMax c <? HTTPPortMin c)%N
    "http_port_min must be less than http_port_max"
  ++ guard (String.eqb (ISOUrl c) "") "An iso_url must be specified."
  ++ guard (String.eqb (SSHUser c) "") "An ssh_username must be specified."
  ++ (if String.eqb (RawBootWait c) "" then []
      else errOf "Failed parsing boot_wait: "
             (Time.ParseDuration (RawBootWait c)).2)
  ++ errOf "Failed parsing shutdown_timeout: " (Time.ParseDuration rawShut).2
  ++ errOf "Failed parsing ssh_wait_timeout: " (Time.ParseDuration rawSSH).2
  ++ guard (VNCPortMax c <? VNCPortMin c)%N
       "vnc_port_min must be less than vnc_port_max"
  ++ errOf "Failed creating VMware driver: "
       (Verify (Fusion5Driver fusionAppPath)).
Proof.
  intros c rawShut rawSSH. unfold violations.
  rewrite Prepare_validate_fields. cbn [fst snd]. fold c rawShut rawSSH.
  by rewrite <- !app_assoc.
Qed.

(** C3.  When, after the defaults, [http_port_min] exceeds [http_port_max]
    or [vnc_port_min] exceeds [vnc_port_max], [Prepare] fails with one
    [MultiError] that names the inverted range and, in the same list, every
    other violation the configuration has: a missing [iso_url], a missing
    [ssh_username], each duration that does not parse, and a driver that
    does not verify. *)
Theorem Prepare_reports_every_violation (b : Builder) (raw : Raw) :
  (Decode raw (b_config b)).2 = None ->
  let c := b_config (Prepare Decode Verify b raw).1 in
  (HTTPPortMax c < HTTPPortMin c \/ VNCPortMax c < VNCPortMin c)%N ->
  exists errs : list error,
    (Prepare Decode Verify b raw).2 = Some (MultiError errs)
    /\ ((HTTPPortMax c < HTTPPortMin c)%N ->
        errorString "http_port_min must be less than http_port_max" ∈ errs)
    /\ ((VNCPortMax c < VNCPortMin c)%N ->
        errorString "vnc_port_min must be less than vnc_port_max" ∈ errs)
    /\ (ISOUrl c = "" -> errorString "An iso_url must be specified." ∈ errs)
    /\ (SSHUser c = "" ->
        errorString "An ssh_username must be specified." ∈ errs)
    /\ (forall e, RawBootWait c <> "" ->
        (Time.ParseDuration (RawBootWait c)).2 = Some e ->
        errorString ("Failed parsing boot_wait: " +:+ e) ∈ errs)
    /\ (forall e, (Time.ParseDuration (RawShutdownTimeout c)).2 = Some e ->
        errorString ("Failed parsing shutdown_timeout: " +:+ e) ∈ errs)
    /\ (forall e, (Time.ParseDuration (RawSSHWaitTimeout c)).2 = Some e ->
        errorString ("Failed parsing ssh_wait_timeout: " +:+ e) ∈ errs)
    /\ (forall e, Verify (Fusion5Driver fusionAppPath) = Some e ->
        errorString ("Failed creating VMware driver: " +:+ e) ∈ errs).
Proof.
  intros Hdec c. subst c.
  rewrite (Prepare_decoded _ _ _ (decoded_pair _ _ Hdec)).
  set (c0 := (Decode raw (b_config b)).1).
  rewrite Prepare_validate_fields. cbn [fst snd b_config].
  set (cd := Prepare_defaults c0).
  cbn [HTTPPortMin HTTPPortMax VNCPortMin VNCPortMax ISOUrl SSHUser
       RawBootWait RawShutdownTimeout RawSSHWaitTimeout].
  intros Hinv.
  pose proof (violations_fields c0) as Hv. cbv zeta in Hv. fold cd in Hv.
  assert (Hall :
    ((HTTPPortMax cd < HTTPPortMin cd)%N ->
     errorString "http_port_min must be less than http_port_max"
       ∈ violations Verify c0)
    /\ ((VNCPortMax cd < VNCPortMin cd)%N ->
        errorString "vnc_port_min must be less than vnc_port_max"
          ∈ violations Verify c0)
    /\ (ISOUrl cd = "" ->
        errorString "An iso_url must be specified." ∈ violations Verify c0)
    /\ (SSHUser cd = "" ->
        errorString "An ssh_username must be specified." ∈ violations Verify c0)
    /\ (forall e, RawBootWait cd <> "" ->
        (Time.ParseDuration (RawBootWait cd)).2 = Some e ->
        errorString ("Failed parsing boot_wait: " +:+ e) ∈ violations Verify c0)
    /\ (forall e,
        (Time.ParseDuration (orDefault (RawShutdownTimeout cd) "5m")).2
        = Some e ->
        errorString ("Failed parsing shutdown_timeout: " +:+ e)
          ∈ violations Verify c0)
    /\ (forall e,
        (Time.ParseDuration (orDefault (RawSSHWaitTimeout cd) "20m")).2
        = Some e ->
        errorString ("Failed parsing ssh_wait_timeout: " +:+ e)
          ∈ violations Verify c0)
    /\ (forall e, Verify (Fusion5Driver fusionAppPath) = Some e ->
        errorString ("Failed creating VMware driver: " +:+ e)
          ∈ violations Verify c0)).
  { rewrite Hv.
    repeat split; intros; rewrite !elem_of_app.
    - left. apply elem_of_guard. by apply N.ltb_lt.
    - do 6 right. left. apply elem_of_guard. by apply N.ltb_lt.
    - right. left. apply elem_of_guard. by apply String.eqb_eq.
    - do 2 right. left. apply elem_of_guard. by apply String.eqb_eq.
    - do 3 right. left.
      destruct (String.eqb_spec (RawBootWait cd) ""); [done|].
      match goal with He : _ = Some e |- _ => rewrite He end.
      apply list_elem_of_here.
    - do 4 right. left.
      match goal with He : _ = Some e |- _ => rewrite He end.
      apply list_elem_of_here.
    - do 5 right. left.
      match goal with He : _ = Some e |- _ => rewrite He end.
      apply list_elem_of_here.
    - do 7 right.
      match goal with He : _ = Some e |- _ => rewrite He end.
      apply list_elem_of_here. }
  exists (violations Verify c0). split; [|exact Hall].
  destruct (violations Verify c0) as [|v vs] eqn:E; [|reflexivity].
  destruct Hall as (Hh & Hn & _).
  destruct Hinv as [H|H]; [apply Hh in H | apply Hn in H];
    by apply elem_of_nil in H.
Qed.






End PrepareFacts.

(** ** [Run] and [Cancel] *)

Section RunFacts.

Variable runStep : Step -> Machine -> StepAction * Machine.
Variable cleanupStep : Step -> Machine -> Machine.
Variable Join : string -> string -> string.

(** C2.  [Run] returns an artifact only when the state bag the runner
    leaves holds neither the cancelled nor the halted marker; when either
    marker is there, [Run] returns none. *)
Theorem Run_artifact_only_if_clean (b : Builder) (ui : Ui) (hook : Hook)
  (w : World) :
  let state := m_state (Run_pipeline runStep cleanupStep b ui hook w).1.2 in
  let artifact := (Run runStep cleanupStep Join b ui hook w).1.1 in
  (has_key StateCancelled state = true \/ has_key StateHalted state = true ->
   artifact = None)
  /\ (forall a, artifact = Some a ->
      has_key StateCancelled state = false
      /\ has_key StateHalted state = false).
Proof.
  intros state artifact. subst state artifact. unfold Run.
  destruct (Run_pipeline runStep cleanupStep b ui hook w) as [[b' m] ran].
  cbn [fst snd].
  destruct (has_key StateCancelled (m_state m));
    [split; [done | intros a; discriminate]|].
  destruct (has_key StateHalted (m_state m));
    [split; [done | intros a; discriminate]|].
  split; [intros [?|?]; discriminate | done].
Qed.


Lemma advance_executed steps i r m executed :
  exists l, (advance runStep steps i r m executed).2 = l ++ executed.
Proof.
  revert i r m executed.
  induction steps as [|step rest IH]; intros i r m executed.
  - by exists [].
  - cbn [advance].
    destruct (has_key StateCancelled _ || has_key StateHalted _);
      [by exists []|].
    destruct (runStep step _) as [[] m'].
    + destruct (IH (S i) (if bool_decide (cancel_at (m_world m) = Some i)
                          then BasicRunner_Cancel r else r) m'
                  (step :: executed)) as [l Hl].
      exists (l ++ [step]). rewrite Hl. by rewrite <- app_assoc.
    + by exists [step].
Qed.

Lemma advance_first step rest i r m :
  cancelRequested r = false ->
  cancel_at (m_world m) <> Some i ->
  has_key StateCancelled (m_state m) = false ->
  has_key StateHalted (m_state m) = false ->
  exists l, (advance runStep (step :: rest) i r m []).2 = l ++ [step].
Proof.
  intros Hr Hc Hnc Hnh. cbn [advance].
  rewrite bool_decide_eq_false_2 by done. rewrite Hr, Hnc, Hnh. cbn [orb].
  destruct (runStep step m) as [[] m'].
  - apply advance_executed.
  - by exists [].
Qed.

(** C1, amended.  On a builder that has not run, [Cancel] does nothing, and
    the [Run] that follows is the [Run] there would have been without it: a
    new runner over a new state bag, whose first step is executed (unless a
    [Cancel] from another goroutine lands before the first check). *)
Theorem Cancel_before_Run (b : Builder) (ui : Ui) (hook : Hook) (w : World) :
  b_runner b = None ->
  Cancel b w = (b, w)
  /\ Run runStep cleanupStep Join (Cancel b w).1 ui hook (Cancel b w).2
     = Run runStep cleanupStep Join b ui hook w
  /\ (cancel_at w <> Some 0%nat ->
      exists rest,
        (Run_pipeline runStep cleanupStep (Cancel b w).1 ui hook
           (Cancel b w).2).2
        = stepPrepareOutputDir :: rest).
Proof.
  intros Hnil.
  assert (HC : Cancel b w = (b, w)) by (unfold Cancel; by rewrite Hnil).
  rewrite HC. cbn [fst snd]. split; [done|]. split; [done|].
  intros Hc. unfold Run_pipeline, BasicRunner_Run. cbn [Steps].
  match goal with
  | |- context [advance runStep (?s :: ?rest) 0 ?r ?m []] =>
      destruct (advance_first s rest 0%nat r m) as [l Hl];
        [reflexivity | exact Hc | reflexivity | reflexivity |];
        destruct (advance runStep (s :: rest) 0 r m []) as [[r' m'] ex]
  end.
  cbn [fst snd] in *. subst ex. rewrite rev_app_distr. simpl. eauto.
Qed.

End RunFacts.

(** C8.  A second [Cancel] changes nothing of the builder the first one
    left, nor of the world but for one more line in the log; the runner it
    leaves carries on, from any point of its loop, as the runner the first
    call left. *)
Theorem Cancel_idempotent (b : Builder) (w : World) :
  let once := Cancel b w in
  let twice := Cancel once.1 once.2 in
  twice.1 = once.1
  /\ (fs twice.2 = fs once.2 /\ ui_out twice.2 = ui_out once.2
      /\ clock twice.2 = clock once.2 /\ rand_seed twice.2 = rand_seed once.2
      /\ cancel_at twice.2 = cancel_at once.2)
  /\ (forall runStep r1 r2 steps i m executed,
      b_runner once.1 = Some r1 -> b_runner twice.1 = Some r2 ->
      advance runStep steps i r2 m executed
      = advance runStep steps i r1 m executed).
Proof.
  intros once twice. subst once twice. unfold Cancel.
  destruct (b_runner b) as [r|] eqn:Hr; cbn [fst snd b_runner].
  - repeat split; intros; simplify_eq; reflexivity.
  - rewrite Hr. repeat split; intros; simplify_eq.
Qed.

(** ** What the walk of [Run] collects *)

Section Paths.

Variable Join : string -> string -> string.

Lemma Node_forall_ind (P : Node -> Prop) :
  P File ->
  (forall e, P (DirUnreadable e)) ->
  (forall entries, Forall (fun e : string * Node => P e.2) entries ->
                   P (Dir entries)) ->
  forall n, P n.
Proof.
  intros HF HU HD.
  fix IH 1. intros [|entries|e]; [exact HF | | apply HU].
  apply HD. induction entries as [|[name child] l IHl]; constructor.
  - apply IH.
  - exact IHl.
Qed.

Lemma walk_visit_readable n :
  forall path files,
    readable n = true ->
    Filepath.walk Join path n visit files = (None, files ++ paths Join path n).
Proof.
  induction n as [| e |entries IH] using Node_forall_ind;
    intros path files Hr; [reflexivity | discriminate |].
  cbn [Filepath.walk visit paths]. cbn [readable] in Hr.
  match goal with
  | |- ?each entries _ = _ =>
      assert (Hloop : forall acc,
        each entries acc
        = (None,
           acc ++ flat_map (fun e : string * Node => paths Join (Join path e.1) e.2)
                    entries))
  end.
  { clear files. induction entries as [|[name child] l IHl]; intros acc.
    - by rewrite app_nil_r.
    - cbn [forallb] in Hr. apply andb_prop in Hr as [Hc Hl].
      inversion IH as [|? ? Hchild Hrest]; subst.
      cbn [flat_map fst snd] in *.
      rewrite (Hchild _ _ Hc). rewrite (IHl Hrest Hl).
      by rewrite app_assoc. }
  rewrite Hloop. by rewrite <- app_assoc.
Qed.


End Paths.

Example paths_treeD :
  paths Host.Join "d" Host.treeD = ["d"; "d/a"; "d/b"; "d/b/c"].
Proof. reflexivity. Qed.

(** ** The builder on the host of the examples *)

Import Host.


(** A port set to 0 and a port left out prepare the same builder. *)
Example Prepare_port_zero_or_absent :
  Prepare Decode VerifyOk newBuilder rawPortZero
  = Prepare Decode VerifyOk newBuilder rawMinimal.
Proof. vm_compute. reflexivity. Qed.


(** C3: the HTTP range inverted by the default of its upper bound, no
    [iso_url], no [ssh_username], a boot wait that does not parse, no
    Fusion: five errors in one result. *)
Lemma Prepare_reports_every_violation_witness :
  exists errs : list error,
    (Prepare Decode VerifyMissing newBuilder rawInverted).2
    = Some (MultiError errs)
    /\ errorString "http_port_min must be less than http_port_max" ∈ errs
    /\ errorString "An iso_url must be specified." ∈ errs
    /\ errorString "An ssh_username must be specified." ∈ errs
    /\ errorString "Failed parsing boot_wait: time: invalid duration soon"
         ∈ errs.
Proof.
  assert (Hdec : (Decode rawInverted (b_config newBuilder)).2 = None)
    by (vm_compute; reflexivity).
  pose proof (Prepare_reports_every_violation Decode VerifyMissing newBuilder
                rawInverted Hdec) as H.
  cbv zeta in H.
  destruct H as (errs & Hres & Hhttp & _ & Hiso & Hssh & Hboot & _).
  { left. vm_compute. reflexivity. }
  exists errs. split; [exact Hres|].
  split; [apply Hhttp; vm_compute; reflexivity|].
  split; [apply Hiso; vm_compute; reflexivity|].
  split; [apply Hssh; vm_compute; reflexivity|].
  apply (Hboot "time: invalid duration soon").
  - vm_compute. discriminate.
  - vm_compute. reflexivity.
Defined.




(** A run whose steps all succeed, in the world [worldD]. *)
Example Run_pipeline_clean :
  (Run_pipeline runStepOk cleanupStepNone preparedD ui0 hook0 worldD).2
  = [ stepPrepareOutputDir; stepCreateDisk; stepCreateVMX; stepHTTPServer;
      stepConfigureVNC; stepRun; stepTypeBootCommand; stepWaitForSSH;
      stepProvision; stepShutdown ].
Proof. vm_compute. reflexivity. Qed.

(** C2: a run halted by the second step, and a run cancelled from outside
    before the fourth, return no artifact. *)
Lemma Run_artifact_only_if_clean_witness :
  has_key StateHalted
    (m_state
       (Run_pipeline runStepDiskFails cleanupStepNone preparedD ui0 hook0
          worldD).1.2) = true
  /\ (Run runStepDiskFails cleanupStepNone Join preparedD ui0 hook0
        worldD).1.1 = None
  /\ has_key StateCancelled
       (m_state
          (Run_pipeline runStepOk cleanupStepNone preparedD ui0 hook0
             worldCancelled).1.2) = true
  /\ (Run runStepOk cleanupStepNone Join preparedD ui0 hook0
        worldCancelled).1.1 = None.
Proof.
  assert (Hh : has_key StateHalted
                 (m_state
                    (Run_pipeline runStepDiskFails cleanupStepNone preparedD
                       ui0 hook0 worldD).1.2) = true)
    by (vm_compute; reflexivity).
  assert (Hc : has_key StateCancelled
                 (m_state
                    (Run_pipeline runStepOk cleanupStepNone preparedD ui0
                       hook0 worldCancelled).1.2) = true)
    by (vm_compute; reflexivity).
  split; [exact Hh|]. split.
  - exact (proj1 (Run_artifact_only_if_clean runStepDiskFails cleanupStepNone
                    Join preparedD ui0 hook0 worldD) (or_intror Hh)).
  - split; [exact Hc|].
    exact (proj1 (Run_artifact_only_if_clean runStepOk cleanupStepNone Join
                    preparedD ui0 hook0 worldCancelled) (or_introl Hc)).
Defined.

(** The cancelled run stopped after three steps. *)
Example Run_pipeline_cancelled :
  (Run_pipeline runStepOk cleanupStepNone preparedD ui0 hook0
     worldCancelled).2
  = [stepPrepareOutputDir; stepCreateDisk; stepCreateVMX].
Proof. vm_compute. reflexivity. Qed.


(** C1, as stated, fails: [Cancel] on a builder prepared and not yet run
    leaves it as it is, and the [Run] that follows runs the ten steps and
    returns an artifact. *)
Lemma Cancel_before_Run_runs_all :
  b_runner prepared = None
  /\ Cancel prepared worldVmware = (prepared, worldVmware)
  /\ (Run_pipeline runStepOk cleanupStepNone
        (Cancel prepared worldVmware).1 ui0 hook0
        (Cancel prepared worldVmware).2).2
     = [ stepPrepareOutputDir; stepCreateDisk; stepCreateVMX; stepHTTPServer;
         stepConfigureVNC; stepRun; stepTypeBootCommand; stepWaitForSSH;
         stepProvision; stepShutdown ]
  /\ (Run runStepOk cleanupStepNone Join (Cancel prepared worldVmware).1
        ui0 hook0 (Cancel prepared worldVmware).2).1.1
     = Some (mkArtifact "vmware"
               ["vmware"; "vmware/disk.vmdk"; "vmware/packer.vmx"]).
Proof. vm_compute. repeat split; reflexivity. Qed.

Lemma Cancel_before_Run_witness :
  b_runner prepared = None
  /\ Run runStepOk cleanupStepNone Join (Cancel prepared worldVmware).1
       ui0 hook0 (Cancel prepared worldVmware).2
     = Run runStepOk cleanupStepNone Join prepared ui0 hook0 worldVmware.
Proof.
  assert (Hnil : b_runner prepared = None) by (vm_compute; reflexivity).
  split; [exact Hnil|].
  exact (proj1 (proj2 (Cancel_before_Run runStepOk cleanupStepNone Join
                         prepared ui0 hook0 worldVmware Hnil))).
Defined.

(** C8 on a builder whose run is over: the runner is flagged once. *)
Example Cancel_twice_after_Run :
  let b := (Run runStepOk cleanupStepNone Join preparedD ui0 hook0 worldD).1.2
  in
  b_runner (Cancel b worldD).1
  = Some (mkBasicRunner
            [ stepPrepareOutputDir; stepCreateDisk; stepCreateVMX;
              stepHTTPServer; stepConfigureVNC; stepRun; stepTypeBootCommand;
              stepWaitForSSH; stepProvision; stepShutdown ] true)
  /\ (Cancel (Cancel b worldD).1 (Cancel b worldD).2).1 = (Cancel b worldD).1
  /\ log_out (Cancel (Cancel b worldD).1 (Cancel b worldD).2).2
     = ["Cancelling the step runner..."; "Cancelling the step runner..."].
Proof. vm_compute. repeat split; reflexivity. Qed.

Section ArtifactFacts.

Variable runStep : Step -> Machine -> StepAction * Machine.
Variable cleanupStep : Step -> Machine -> Machine.
Variable Join : string -> string -> string.

(** What a clean run returns when the output directory is there and all of
    it can be read: the directory, and every path of its tree, the
    directory itself and the directories under it among them. *)
Lemma Run_artifact_paths (b : Builder) (ui : Ui) (hook : Hook) (w : World)
  (tree : Node) :
  let b' := (Run_pipeline runStep cleanupStep b ui hook w).1.1 in
  let m := (Run_pipeline runStep cleanupStep b ui hook w).1.2 in
  has_key StateCancelled (m_state m) = false ->
  has_key StateHalted (m_state m) = false ->
  fs (m_world m) !! OutputDir (b_config b') = Some tree ->
  readable tree = true ->
  (Run runStep cleanupStep Join b ui hook w).1.1
  = Some (mkArtifact (OutputDir (b_config b'))
            (paths Join (OutputDir (b_config b')) tree)).
Proof.
  unfold Run.
  destruct (Run_pipeline runStep cleanupStep b ui hook w) as [[b' m] ran].
  cbn [fst snd]. intros -> -> Htree Hread.
  unfold Filepath.Walk. rewrite Htree.
  rewrite (walk_visit_readable Join tree _ _ Hread). reflexivity.
Qed.

End ArtifactFacts.

(** C6, where the code departs from it: for the files [a] and [b/c] under
    [d], the artifact lists [d] and [d/b] next to [d/a] and [d/b/c]. *)
Theorem Run_artifact_lists_directories :
  (Run runStepOk cleanupStepNone Join preparedD ui0 hook0 worldD).1.1
  = Some (mkArtifact "d" ["d"; "d/a"; "d/b"; "d/b/c"]).
Proof. vm_compute. reflexivity. Qed.

(** * Further properties of [Prepare] *)

Section PrepareMore.

Context {Raw : Type}.
Variable Decode : Raw -> config -> config * option string.
Variable Verify : Driver -> option string.

(** The configuration [Prepare] leaves, field by field, from the decoded
    one. *)
Lemma Prepare_config_fields b raw :
  (Decode raw (b_config b)).2 = None ->
  let c0 := (Decode raw (b_config b)).1 in
  let rawShut := orDefault (RawShutdownTimeout c0) "5m" in
  let rawSSH := orDefault (RawSSHWaitTimeout c0) "20m" in
  b_config (Prepare Decode Verify b raw).1 =
  mkConfig (orDefault (DiskName c0) "disk")
    (orDefault (GuestOSType c0) "other") (ISOUrl c0)
    (orDefault (VMName c0) "packer") (orDefault (OutputDir c0) "vmware")
    (HTTPDir c0) (orPort (HTTPPortMin c0) 8000) (orPort (HTTPPortMax c0) 9000)
    (BootCommand c0)
    (if String.eqb (RawBootWait c0) "" then BootWait c0
     else (Time.ParseDuration (RawBootWait c0)).1)
    (ShutdownCommand c0) (Time.ParseDuration rawShut).1 (SSHUser c0)
    (SSHPassword c0) (Time.ParseDuration rawSSH).1 (VMXData c0)
    (orPort (VNCPortMin c0) 5900) (orPort (VNCPortMax c0) 6000)
    (RawBootWait c0) rawShut rawSSH.
Proof.
  intros Hdec c0 rawShut rawSSH.
  rewrite (Prepare_decoded Decode Verify _ _ _ (decoded_pair Decode _ _ Hdec)). fold c0.
  cbn [fst b_config].
  rewrite Prepare_validate_fields, Prepare_defaults_fields. reflexivity.
Qed.

Lemma orDefault_nonempty v dflt : dflt <> "" -> orDefault v dflt <> "".
Proof.
  unfold orDefault. destruct (String.eqb_spec v ""); congruence.
Qed.

(** X1.  After [Prepare], the disk name, the guest OS type, the VM name and
    the output directory are what was decoded when that is not empty, and
    ["disk"], ["other"], ["packer"], ["vmware"] when it is: none of the
    four is ever empty. *)
Theorem Prepare_names_defaulted (b : Builder) (raw : Raw) :
  (Decode raw (b_config b)).2 = None ->
  let c0 := (Decode raw (b_config b)).1 in
  let c := b_config (Prepare Decode Verify b raw).1 in
  (DiskName c = (if String.eqb (DiskName c0) "" then "disk" else DiskName c0)
   /\ GuestOSType c
      = (if String.eqb (GuestOSType c0) "" then "other" else GuestOSType c0)
   /\ VMName c = (if String.eqb (VMName c0) "" then "packer" else VMName c0)
   /\ OutputDir c
      = (if String.eqb (OutputDir c0) "" then "vmware" else OutputDir c0))
  /\ (DiskName c <> "" /\ GuestOSType c <> "" /\ VMName c <> ""
      /\ OutputDir c <> "").
Proof.
  intros Hdec c0 c. subst c. rewrite (Prepare_config_fields _ _ Hdec).
  fold c0. cbn [DiskName GuestOSType VMName OutputDir].
  split; [done|]. repeat split; by apply orDefault_nonempty.
Qed.

(** X2.  [Prepare] leaves alone what the user gave: the ISO URL, the HTTP
    directory, the boot command, the shutdown command, the SSH user and
    password, the VMX data and the text of the boot wait are what was
    decoded, and so is every port bound that is not 0 and every timeout
    text that is not empty. *)
Theorem Prepare_keeps_given (b : Builder) (raw : Raw) :
  (Decode raw (b_config b)).2 = None ->
  let c0 := (Decode raw (b_config b)).1 in
  let c := b_config (Prepare Decode Verify b raw).1 in
  (ISOUrl c = ISOUrl c0 /\ HTTPDir c = HTTPDir c0
   /\ BootCommand c = BootCommand c0 /\ ShutdownCommand c = ShutdownCommand c0
   /\ SSHUser c = SSHUser c0 /\ SSHPassword c = SSHPassword c0
   /\ VMXData c = VMXData c0 /\ RawBootWait c = RawBootWait c0)
  /\ ((HTTPPortMin c0 <> 0 -> HTTPPortMin c = HTTPPortMin c0)
      /\ (HTTPPortMax c0 <> 0 -> HTTPPortMax c = HTTPPortMax c0)
      /\ (VNCPortMin c0 <> 0 -> VNCPortMin c = VNCPortMin c0)
      /\ (VNCPortMax c0 <> 0 -> VNCPortMax c = VNCPortMax c0))%N
  /\ ((RawShutdownTimeout c0 <> "" ->
       RawShutdownTimeout c = RawShutdownTimeout c0)
      /\ (RawSSHWaitTimeout c0 <> "" ->
          RawSSHWaitTimeout c = RawSSHWaitTimeout c0)).
Proof.
  intros Hdec c0 c. subst c. rewrite (Prepare_config_fields _ _ Hdec).
  fold c0. cbn. unfold orPort, orDefault.
  repeat split; try reflexivity; intros Hne.
  - by destruct (N.eqb_spec (HTTPPortMin c0) 0).
  - by destruct (N.eqb_spec (HTTPPortMax c0) 0).
  - by destruct (N.eqb_spec (VNCPortMin c0) 0).
  - by destruct (N.eqb_spec (VNCPortMax c0) 0).
  - by destruct (String.eqb_spec (RawShutdownTimeout c0) "").
  - by destruct (String.eqb_spec (RawSSHWaitTimeout c0) "").
Qed.

End PrepareMore.

Section PrepareOutcome.

Context {Raw : Type}.
Variable Decode : Raw -> config -> config * option string.
Variable Verify : Driver -> option string.

(** What [Prepare] returns, from the configuration it leaves. *)
Lemma Prepare_outcome b raw :
  (Decode raw (b_config b)).2 = None ->
  (Prepare Decode Verify b raw).2 =
  match reported Verify (b_config (Prepare Decode Verify b raw).1) with
  | [] => None
  | e :: errs => Some (MultiError (e :: errs))
  end.
Proof.
  intros Hdec.
  rewrite (Prepare_decoded Decode Verify _ _ _ (decoded_pair Decode _ _ Hdec)).
  cbn [fst snd b_config].
  set (c0 := (Decode raw (b_config b)).1).
  rewrite (violations_fields Verify c0). cbv zeta.
  rewrite Prepare_validate_fields. cbn [fst]. unfold reported.
  cbn [HTTPPortMin HTTPPortMax VNCPortMin VNCPortMax ISOUrl SSHUser
       RawBootWait RawShutdownTimeout RawSSHWaitTimeout].
  by destruct (_ ++ _).
Qed.

Lemma guard_nil b msg : guard b msg = [] <-> b = false.
Proof. by destruct b. Qed.

Lemma errOf_nil_iff prefix err : errOf prefix err = [] <-> err = None.
Proof. by destruct err. Qed.

Lemma reported_nil c :
  reported Verify c = [] <->
  (HTTPPortMin c <= HTTPPortMax c)%N
  /\ ISOUrl c <> ""
  /\ SSHUser c <> ""
  /\ (RawBootWait c = "" \/ (Time.ParseDuration (RawBootWait c)).2 = None)
  /\ (Time.ParseDuration (RawShutdownTimeout c)).2 = None
  /\ (Time.ParseDuration (RawSSHWaitTimeout c)).2 = None
  /\ (VNCPortMin c <= VNCPortMax c)%N
  /\ Verify (Fusion5Driver fusionAppPath) = None.
Proof.
  unfold reported.
  rewrite !app_nil, !guard_nil, !errOf_nil_iff, !N.ltb_ge.
  destruct (String.eqb_spec (ISOUrl c) ""), (String.eqb_spec (SSHUser c) ""),
    (String.eqb_spec (RawBootWait c) "");
    rewrite ?errOf_nil_iff; intuition congruence.
Qed.

(** X3.  [Prepare] accepts a configuration that decodes exactly when, after
    the defaults, both port ranges are in order, the ISO URL and the SSH
    user are not empty, the boot wait is empty or parses, both timeouts
    parse, and the driver verifies. *)
Theorem Prepare_accepts_iff (b : Builder) (raw : Raw) :
  (Decode raw (b_config b)).2 = None ->
  let c := b_config (Prepare Decode Verify b raw).1 in
  (Prepare Decode Verify b raw).2 = None <->
  (HTTPPortMin c <= HTTPPortMax c)%N
  /\ ISOUrl c <> ""
  /\ SSHUser c <> ""
  /\ (RawBootWait c = "" \/ (Time.ParseDuration (RawBootWait c)).2 = None)
  /\ (Time.ParseDuration (RawShutdownTimeout c)).2 = None
  /\ (Time.ParseDuration (RawSSHWaitTimeout c)).2 = None
  /\ (VNCPortMin c <= VNCPortMax c)%N
  /\ Verify (Fusion5Driver "/Applications/VMware Fusion.app") = None.
Proof.
  intros Hdec c. rewrite (Prepare_outcome _ _ Hdec). fold c.
  rewrite <- (reported_nil c). by destruct (reported Verify c).
Qed.

(** X4.  In every configuration [Prepare] accepts the lower bound of each
    port range is at most the upper one; equal bounds are accepted. *)
Theorem Prepare_accepted_ranges (b : Builder) (raw : Raw) :
  (Decode raw (b_config b)).2 = None ->
  (Prepare Decode Verify b raw).2 = None ->
  let c := b_config (Prepare Decode Verify b raw).1 in
  (HTTPPortMin c <= HTTPPortMax c)%N /\ (VNCPortMin c <= VNCPortMax c)%N.
Proof.
  intros Hdec Hacc c. rewrite (Prepare_outcome _ _ Hdec) in Hacc. fold c in Hacc.
  assert (Hnil : reported Verify c = []) by (by destruct (reported Verify c)).
  apply reported_nil in Hnil. tauto.
Qed.

(** X5.  The [MultiError] of [Prepare] is never empty, and its errors come
    in the order of the checks: the HTTP range, the ISO URL, the SSH user,
    the boot wait, the shutdown timeout, the SSH wait timeout, the VNC
    range, the driver; each is there once, and nothing else is. *)
Theorem Prepare_errors_in_order (b : Builder) (raw : Raw) (errs : list error) :
  (Decode raw (b_config b)).2 = None ->
  (Prepare Decode Verify b raw).2 = Some (MultiError errs) ->
  let c := b_config (Prepare Decode Verify b raw).1 in
  errs <> []
  /\ errs =
     (if (HTTPPortMax c <? HTTPPortMin c)%N
      then [errorString "http_port_min must be less than http_port_max"]
      else [])
     ++ (if String.eqb (ISOUrl c) ""
         then [errorString "An iso_url must be specified."] else [])
     ++ (if String.eqb (SSHUser c) ""
         then [errorString "An ssh_username must be specified."] else [])
     ++ (if String.eqb (RawBootWait c) "" then []
         else match (Time.ParseDuration (RawBootWait c)).2 with
              | Some e => [errorString ("Failed parsing boot_wait: " +:+ e)]
              | None => []
              end)
     ++ match (Time.ParseDuration (RawShutdownTimeout c)).2 with
        | Some e => [errorString ("Failed parsing shutdown_timeout: " +:+ e)]
        | None => []
        end
     ++ match (Time.ParseDuration (RawSSHWaitTimeout c)).2 with
        | Some e => [errorString ("Failed parsing ssh_wait_timeout: " +:+ e)]
        | None => []
        end
     ++ (if (VNCPortMax c <? VNCPortMin c)%N
         then [errorString "vnc_port_min must be less than vnc_port_max"]
         else [])
     ++ match Verify (Fusion5Driver "/Applications/VMware Fusion.app") with
        | Some e => [errorString ("Failed creating VMware driver: " +:+ e)]
        | None => []
        end.
Proof.
  intros Hdec Hres c. rewrite (Prepare_outcome _ _ Hdec) in Hres.
  fold c in Hres.
  change (errs <> [] /\ errs = reported Verify c).
  destruct (reported Verify c) as [|e l]; [discriminate|].
  injection Hres as <-. done.
Qed.

End PrepareOutcome.

Section PrepareSound.

Context {Raw : Type}.
Variable Decode : Raw -> config -> config * option string.
Variable Verify : Driver -> option string.

Lemma elem_of_guard_iff x b msg :
  x ∈ guard b msg <-> b = true /\ x = errorString msg.
Proof.
  destruct b; simpl.
  - rewrite list_elem_of_singleton. tauto.
  - rewrite elem_of_nil. split; [done | intros [? _]; done].
Qed.

Lemma elem_of_errOf_iff x prefix err :
  x ∈ errOf prefix err <->
  exists e, err = Some e /\ x = errorString (prefix +:+ e).
Proof.
  destruct err as [e|]; simpl.
  - rewrite list_elem_of_singleton. split; [eauto|].
    by intros (e' & [= <-] & ->).
  - rewrite elem_of_nil. split; [done | by intros (? & ? & _)].
Qed.

Lemma append_inj_r (p s t : string) : p +:+ s = p +:+ t -> s = t.
Proof. induction p as [|a p IH]; simpl; [done|]. intros [= H]. auto. Qed.

Lemma elem_of_errOf_unless x (r prefix : string) err :
  x ∈ (if String.eqb r "" then [] else errOf prefix err) <->
  r <> "" /\ exists e, err = Some e /\ x = errorString (prefix +:+ e).
Proof.
  destruct (String.eqb_spec r "").
  - rewrite elem_of_nil. split; [done | by intros [? _]].
  - rewrite elem_of_errOf_iff. tauto.
Qed.

(** Membership in the list of [reported], piece by piece. *)
Ltac pieces :=
  unfold reported;
  rewrite !elem_of_app, !elem_of_guard_iff, elem_of_errOf_unless,
    !elem_of_errOf_iff.

Lemma elem_of_reported x c :
  x ∈ reported Verify c <->
  ((HTTPPortMax c <? HTTPPortMin c)%N = true
   /\ x = errorString "http_port_min must be less than http_port_max")
  \/ (String.eqb (ISOUrl c) "" = true
      /\ x = errorString "An iso_url must be specified.")
  \/ (String.eqb (SSHUser c) "" = true
      /\ x = errorString "An ssh_username must be specified.")
  \/ (RawBootWait c <> ""
      /\ exists e, (Time.ParseDuration (RawBootWait c)).2 = Some e
                   /\ x = errorString ("Failed parsing boot_wait: " +:+ e))
  \/ (exists e, (Time.ParseDuration (RawShutdownTimeout c)).2 = Some e
                /\ x = errorString
                         ("Failed parsing shutdown_timeout: " +:+ e))
  \/ (exists e, (Time.ParseDuration (RawSSHWaitTimeout c)).2 = Some e
                /\ x = errorString
                         ("Failed parsing ssh_wait_timeout: " +:+ e))
  \/ ((VNCPortMax c <? VNCPortMin c)%N = true
      /\ x = errorString "vnc_port_min must be less than vnc_port_max")
  \/ (exists e, Verify (Fusion5Driver fusionAppPath) = Some e
                /\ x = errorString
                         ("Failed creating VMware driver: " +:+ e)).
Proof. pieces. reflexivity. Qed.

(** Two messages are the same only when they are the same check's. *)
Ltac distinct :=
  repeat match goal with
    | H : _ /\ _ |- _ => destruct H
    | H : exists _, _ |- _ => destruct H
    | H : errorString ?s = errorString ?s |- _ => clear H
    | H : errorString _ = errorString _ |- _ =>
        injection H as H; first [discriminate H | apply append_inj_r in H]
    end;
  subst.

(** The piece of the list a message belongs to. *)
Ltac piece :=
  first [ by eauto 6 | left; piece | right; piece ].

(** X6.  Among the errors [Prepare] returns, each message is there exactly
    when its check fails: the two range errors when the range is inverted,
    the two missing-field errors when the field is empty, a parse error
    with the parser's message when that duration does not parse, the
    driver error with the message of the verification when it fails. *)
Theorem Prepare_reports_only_violations (b : Builder) (raw : Raw)
  (errs : list error) :
  (Decode raw (b_config b)).2 = None ->
  (Prepare Decode Verify b raw).2 = Some (MultiError errs) ->
  let c := b_config (Prepare Decode Verify b raw).1 in
  (errorString "http_port_min must be less than http_port_max" ∈ errs
   <-> (HTTPPortMax c < HTTPPortMin c)%N)
  /\ (errorString "vnc_port_min must be less than vnc_port_max" ∈ errs
      <-> (VNCPortMax c < VNCPortMin c)%N)
  /\ (errorString "An iso_url must be specified." ∈ errs <-> ISOUrl c = "")
  /\ (errorString "An ssh_username must be specified." ∈ errs
      <-> SSHUser c = "")
  /\ (forall e, errorString ("Failed parsing boot_wait: " +:+ e) ∈ errs
      <-> RawBootWait c <> ""
          /\ (Time.ParseDuration (RawBootWait c)).2 = Some e)
  /\ (forall e, errorString ("Failed parsing shutdown_timeout: " +:+ e) ∈ errs
      <-> (Time.ParseDuration (RawShutdownTimeout c)).2 = Some e)
  /\ (forall e, errorString ("Failed parsing ssh_wait_timeout: " +:+ e) ∈ errs
      <-> (Time.ParseDuration (RawSSHWaitTimeout c)).2 = Some e)
  /\ (forall e, errorString ("Failed creating VMware driver: " +:+ e) ∈ errs
      <-> Verify (Fusion5Driver "/Applications/VMware Fusion.app") = Some e).
Proof.
  intros Hdec Hres c. rewrite (Prepare_outcome Decode Verify _ _ Hdec) in Hres.
  fold c in Hres.
  assert (errs = reported Verify c) as ->.
  { destruct (reported Verify c); [discriminate | by injection Hres]. }
  clear Hres. change "/Applications/VMware Fusion.app" with fusionAppPath.
  clearbody c.
  split_and!; try intros e; rewrite elem_of_reported, ?N.ltb_lt,
    ?String.eqb_eq.
  all: split;
    [intros H; destruct_or!; distinct; done
    | intros H; destruct_and?; piece].
Qed.

End PrepareSound.

Section PrepareEdges.

Context {Raw : Type}.
Variable Decode : Raw -> config -> config * option string.
Variable Verify : Driver -> option string.

(** An error of the list [reported] makes [Prepare] fail with it. *)
Lemma Prepare_fails_with b raw x :
  (Decode raw (b_config b)).2 = None ->
  x ∈ reported Verify (b_config (Prepare Decode Verify b raw).1) ->
  exists errs,
    (Prepare Decode Verify b raw).2 = Some (MultiError errs) /\ x ∈ errs.
Proof.
  intros Hdec Hin. rewrite (Prepare_outcome Decode Verify _ _ Hdec).
  destruct (reported Verify _) as [|e l]; [by apply elem_of_nil in Hin|].
  eauto.
Qed.

(** X7.  The ranges are checked after the defaults: a lower HTTP bound
    above 9000 with no upper bound given, or an upper HTTP bound below 8000
    with no lower bound given, is an inverted range, and so is a lower VNC
    bound above 6000 or an upper VNC bound below 5900 given alone. *)
Theorem Prepare_default_range_clash (b : Builder) (raw : Raw) :
  (Decode raw (b_config b)).2 = None ->
  let c0 := (Decode raw (b_config b)).1 in
  (((HTTPPortMax c0 = 0 /\ 9000 < HTTPPortMin c0)
    \/ (HTTPPortMin c0 = 0 /\ 0 < HTTPPortMax c0 < 8000))%N ->
   exists errs,
     (Prepare Decode Verify b raw).2 = Some (MultiError errs)
     /\ errorString "http_port_min must be less than http_port_max" ∈ errs)
  /\ (((VNCPortMax c0 = 0 /\ 6000 < VNCPortMin c0)
       \/ (VNCPortMin c0 = 0 /\ 0 < VNCPortMax c0 < 5900))%N ->
      exists errs,
        (Prepare Decode Verify b raw).2 = Some (MultiError errs)
        /\ errorString "vnc_port_min must be less than vnc_port_max" ∈ errs).
Proof.
  intros Hdec c0.
  split; intros Hclash; apply (Prepare_fails_with _ _ _ Hdec);
    rewrite (Prepare_config_fields Decode Verify _ _ Hdec); fold c0;
    unfold reported;
    cbn [HTTPPortMin HTTPPortMax VNCPortMin VNCPortMax]; unfold orPort;
    rewrite !elem_of_app, !elem_of_guard_iff.
  - left. split; [|done]. apply N.ltb_lt.
    destruct Hclash as [[-> H]|[-> H]]; simpl.
    + destruct (N.eqb_spec (HTTPPortMin c0) 0); lia.
    + destruct (N.eqb_spec (HTTPPortMax c0) 0); lia.
  - do 6 right. left. split; [|done]. apply N.ltb_lt.
    destruct Hclash as [[-> H]|[-> H]]; simpl.
    + destruct (N.eqb_spec (VNCPortMin c0) 0); lia.
    + destruct (N.eqb_spec (VNCPortMax c0) 0); lia.
Qed.


End PrepareEdges.

Section PrepareTwice.

Context {Raw : Type}.
Variable Decode : Raw -> config -> config * option string.
Variable Verify : Driver -> option string.

Lemma orDefault_twice v dflt :
  dflt <> "" -> orDefault (orDefault v dflt) dflt = orDefault v dflt.
Proof.
  intros Hd. unfold orDefault at 1.
  by destruct (String.eqb_spec (orDefault v dflt) "") as [H%orDefault_nonempty|].
Qed.

Lemma orPort_twice v dflt :
  dflt <> 0%N -> orPort (orPort v dflt) dflt = orPort v dflt.
Proof.
  intros Hd. unfold orPort.
  destruct (N.eqb_spec v 0) as [->|Hv].
  - by destruct (N.eqb_spec dflt 0).
  - by destruct (N.eqb_spec v 0).
Qed.

(** X9.  Preparing again a builder that is prepared, with a raw
    configuration that leaves its configuration as it is, changes nothing:
    the same builder and the same outcome come back. *)
Theorem Prepare_again (b : Builder) (raw raw' : Raw) :
  (Decode raw (b_config b)).2 = None ->
  let b1 := (Prepare Decode Verify b raw).1 in
  Decode raw' (b_config b1) = (b_config b1, None) ->
  Prepare Decode Verify b1 raw' = (b1, (Prepare Decode Verify b raw).2).
Proof.
  intros Hdec b1 Hsame.
  rewrite (Prepare_decoded Decode Verify b1 raw' _ Hsame).
  assert (Hc1 : (Prepare_validate (Prepare_defaults (b_config b1))).1
                = b_config b1
                /\ violations Verify (b_config b1)
                   = violations Verify (Decode raw (b_config b)).1).
  { unfold violations. subst b1.
    rewrite (Prepare_config_fields Decode Verify _ _ Hdec).
    set (c0 := (Decode raw (b_config b)).1).
    rewrite !Prepare_validate_fields, !Prepare_defaults_fields.
    cbn [fst snd DiskName GuestOSType ISOUrl VMName OutputDir HTTPDir
         HTTPPortMin HTTPPortMax BootCommand BootWait ShutdownCommand
         ShutdownTimeout SSHUser SSHPassword SSHWaitTimeout VMXData
         VNCPortMin VNCPortMax RawBootWait RawShutdownTimeout
         RawSSHWaitTimeout].
    rewrite !orDefault_twice, !orPort_twice by done.
    split; [|reflexivity].
    by destruct (String.eqb (RawBootWait c0) ""). }
  destruct Hc1 as [Hc1 Hv]. rewrite Hc1, Hv.
  subst b1.
  rewrite (Prepare_decoded Decode Verify b raw _
             (decoded_pair Decode _ _ Hdec)).
  reflexivity.
Qed.

End PrepareTwice.

(** * Further properties of [Run] and [Cancel] *)

Section RunMore.

Variable runStep : Step -> Machine -> StepAction * Machine.
Variable cleanupStep : Step -> Machine -> Machine.
Variable Join : string -> string -> string.

(** X10.  [Cancel] reaches neither the configuration nor the driver, nor
    the files, nor the UI, and it has no hold on a [Run] that starts later:
    whatever the builder has been through, [Run] on the builder [Cancel]
    leaves is [Run] on the builder as it was. *)
Theorem Cancel_then_Run (b : Builder) (w : World) :
  let b1 := (Cancel b w).1 in
  let w1 := (Cancel b w).2 in
  (b_config b1 = b_config b /\ b_driver b1 = b_driver b
   /\ fs w1 = fs w /\ ui_out w1 = ui_out w)
  /\ forall (ui : Ui) (hook : Hook) (w' : World),
       Run runStep cleanupStep Join b1 ui hook w'
       = Run runStep cleanupStep Join b ui hook w'.
Proof.
  unfold Cancel. destruct (b_runner b) as [r|]; cbn [fst snd]; done.
Qed.

(** The walk of a tree with a directory that cannot be read fails. *)
Lemma walk_visit_unreadable n :
  forall path files,
    readable n = false ->
    exists msg files',
      Filepath.walk Join path n visit files
      = (Some (Filepath.Failed msg), files').
Proof.
  induction n as [| e |entries IH] using Node_forall_ind;
    intros path files Hr; [discriminate | cbn; eauto |].
  cbn [Filepath.walk visit]. cbn [readable] in Hr.
  generalize (files ++ [path]). clear files.
  induction entries as [|[name child] l IHl]; intros files;
    [discriminate|].
  cbn [forallb snd] in Hr. inversion IH as [|? ? Hchild Hrest]; subst.
  cbn [snd] in Hchild.
  destruct (readable child) eqn:Hc.
  - rewrite (walk_visit_readable Join child _ _ Hc).
    apply (IHl Hrest Hr).
  - destruct (Hchild (Join path name) files eq_refl) as (msg & files' & ->).
    cbn [Filepath.isSkipDir negb]. rewrite orb_true_r. eauto.
Qed.

(** X11.  A run that ends neither cancelled nor halted, over an output
    directory that is there and can be read throughout, returns the
    directory with every path of its tree, directories and the directory
    itself included, in the order of the walk; it writes nothing to the UI
    and leaves the world as the steps left it. *)
Theorem Run_success (b : Builder) (ui : Ui) (hook : Hook) (w : World)
  (tree : Node) :
  let b' := (Run_pipeline runStep cleanupStep b ui hook w).1.1 in
  let m := (Run_pipeline runStep cleanupStep b ui hook w).1.2 in
  has_key StateCancelled (m_state m) = false ->
  has_key StateHalted (m_state m) = false ->
  fs (m_world m) !! OutputDir (b_config b') = Some tree ->
  readable tree = true ->
  Run runStep cleanupStep Join b ui hook w
  = (Some (mkArtifact (OutputDir (b_config b'))
             (paths Join (OutputDir (b_config b')) tree)),
     b', m_world m).
Proof.
  unfold Run.
  destruct (Run_pipeline runStep cleanupStep b ui hook w) as [[b' m] ran].
  cbn [fst snd]. intros -> -> Htree Hread.
  unfold Filepath.Walk. rewrite Htree.
  by rewrite (walk_visit_readable Join tree _ _ Hread).
Qed.

(** X12.  A run that ends neither cancelled nor halted returns an artifact
    exactly when the output directory is there and every directory in it
    can be read. *)
Theorem Run_artifact_iff (b : Builder) (ui : Ui) (hook : Hook) (w : World) :
  let b' := (Run_pipeline runStep cleanupStep b ui hook w).1.1 in
  let m := (Run_pipeline runStep cleanupStep b ui hook w).1.2 in
  has_key StateCancelled (m_state m) = false ->
  has_key StateHalted (m_state m) = false ->
  is_Some (Run runStep cleanupStep Join b ui hook w).1.1 <->
  exists tree,
    fs (m_world m) !! OutputDir (b_config b') = Some tree
    /\ readable tree = true.
Proof.
  unfold Run.
  destruct (Run_pipeline runStep cleanupStep b ui hook w) as [[b' m] ran].
  cbn [fst snd]. intros -> ->. unfold Filepath.Walk.
  destruct (fs (m_world m) !! OutputDir (b_config b')) as [tree|] eqn:Ht.
  - destruct (readable tree) eqn:Hr.
    + rewrite (walk_visit_readable Join tree _ _ Hr). cbn. split; eauto.
    + destruct (walk_visit_unreadable tree (OutputDir (b_config b')) [] Hr)
        as (msg & files' & ->).
      cbn. split; [by intros [? ?] | intros (? & ? & ?); congruence].
  - cbn. split; [by intros [? ?] | by intros (? & ? & _)].
Qed.

Lemma advance_prefix steps :
  forall i r m executed,
    let res := advance runStep steps i r m executed in
    (exists k, res.2 = rev (take k steps) ++ executed)
    /\ Steps res.1.1 = Steps r.
Proof.
  induction steps as [|step rest IH]; intros i r m executed res; subst res.
  - split; [by exists 0%nat | done].
  - cbn [advance].
    set (r1 := if bool_decide (cancel_at (m_world m) = Some i)
               then BasicRunner_Cancel r else r).
    assert (Hr1 : Steps r1 = Steps r)
      by (subst r1; by destruct (bool_decide _)).
    destruct (has_key StateCancelled _ || has_key StateHalted _);
      [split; [by exists 0%nat | done]|].
    destruct (runStep step _) as [[] m'].
    + destruct (IH (S i) r1 m' (step :: executed)) as [[k Hk] HS].
      split; [|by rewrite HS].
      exists (S k). rewrite Hk. cbn [take rev]. by rewrite <- app_assoc.
    + split; [by exists 1%nat | done].
Qed.

(** X13.  Whatever the steps do, the steps a [Run] executes are an initial
    part of the ten of the builder, in their order, and the builder is
    left with a runner over those ten. *)
Theorem Run_steps_prefix (b : Builder) (ui : Ui) (hook : Hook) (w : World) :
  let pipeline :=
    [ stepPrepareOutputDir; stepCreateDisk; stepCreateVMX; stepHTTPServer;
      stepConfigureVNC; stepRun; stepTypeBootCommand; stepWaitForSSH;
      stepProvision; stepShutdown ] in
  (exists k,
     (Run_pipeline runStep cleanupStep b ui hook w).2 = take k pipeline)
  /\ exists r,
       b_runner (Run runStep cleanupStep Join b ui hook w).1.2 = Some r
       /\ Steps r = pipeline.
Proof.
  intros pipeline.
  assert (Hb : b_runner (Run runStep cleanupStep Join b ui hook w).1.2
               = b_runner (Run_pipeline runStep cleanupStep b ui hook w).1.1).
  { unfold Run.
    destruct (Run_pipeline runStep cleanupStep b ui hook w) as [[b' m] ran].
    cbn [fst snd]. by repeat case_match. }
  rewrite Hb. unfold Run_pipeline, BasicRunner_Run. cbn [Steps].
  match goal with
  | |- context [advance runStep ?s 0 ?r ?m []] =>
      destruct (advance_prefix s 0%nat r m []) as [[k Hk] HS];
        destruct (advance runStep s 0 r m []) as [[r' m'] ex]
  end.
  cbn [fst snd] in *. subst ex. rewrite app_nil_r, rev_involutive.
  split; [by exists k | by exists r'].
Qed.

End RunMore.

(** ** The further properties on the host of the examples *)

Import Host.

Lemma decoded_ok_minimal : (Decode rawMinimal (b_config newBuilder)).2 = None.
Proof. vm_compute. reflexivity. Defined.

(** X1: no name given, the four defaults. *)
Lemma Prepare_names_defaulted_witness :
  (Decode rawMinimal (b_config newBuilder)).2 = None
  /\ DiskName (b_config (Prepare Decode VerifyOk newBuilder rawMinimal).1)
     <> ""
  /\ OutputDir (b_config (Prepare Decode VerifyOk newBuilder rawMinimal).1)
     <> "".
Proof.
  pose proof (Prepare_names_defaulted Decode VerifyOk newBuilder rawMinimal
                decoded_ok_minimal) as H.
  cbv zeta in H. destruct H as [_ (Hd & _ & _ & Ho)].
  split; [exact decoded_ok_minimal|]. split; [exact Hd | exact Ho].
Defined.

(** X2: the lower HTTP bound 9500 stays 9500. *)
Lemma Prepare_keeps_given_witness :
  (Decode rawMinOnly (b_config newBuilder)).2 = None
  /\ HTTPPortMin (Decode rawMinOnly (b_config newBuilder)).1 <> 0%N
  /\ HTTPPortMin (b_config (Prepare Decode VerifyOk newBuilder rawMinOnly).1)
     = HTTPPortMin (Decode rawMinOnly (b_config newBuilder)).1.
Proof.
  assert (Hdec : (Decode rawMinOnly (b_config newBuilder)).2 = None)
    by (vm_compute; reflexivity).
  assert (Hne : HTTPPortMin (Decode rawMinOnly (b_config newBuilder)).1
                <> 0%N) by (vm_compute; discriminate).
  pose proof (Prepare_keeps_given Decode VerifyOk newBuilder rawMinOnly Hdec)
    as H.
  cbv zeta in H. destruct H as (_ & (H & _) & _).
  split; [exact Hdec|]. split; [exact Hne | exact (H Hne)].
Defined.

(** X3: the minimal configuration is accepted, so its checks all pass. *)
Lemma Prepare_accepts_iff_witness :
  (Decode rawMinimal (b_config newBuilder)).2 = None
  /\ (Prepare Decode VerifyOk newBuilder rawMinimal).2 = None
  /\ ISOUrl (b_config (Prepare Decode VerifyOk newBuilder rawMinimal).1)
     <> "".
Proof.
  assert (Hacc : (Prepare Decode VerifyOk newBuilder rawMinimal).2 = None)
    by (vm_compute; reflexivity).
  pose proof (Prepare_accepts_iff Decode VerifyOk newBuilder rawMinimal
                decoded_ok_minimal) as H.
  cbv zeta in H. destruct (proj1 H Hacc) as (_ & Hiso & _).
  split; [exact decoded_ok_minimal|]. split; [exact Hacc | exact Hiso].
Defined.

(** X4: both HTTP bounds 8500. *)
Lemma Prepare_accepted_ranges_witness :
  (Decode rawEqualPorts (b_config newBuilder)).2 = None
  /\ (Prepare Decode VerifyOk newBuilder rawEqualPorts).2 = None
  /\ HTTPPortMin
       (b_config (Prepare Decode VerifyOk newBuilder rawEqualPorts).1)
     = 8500%N
  /\ (HTTPPortMin
        (b_config (Prepare Decode VerifyOk newBuilder rawEqualPorts).1)
      <= HTTPPortMax
           (b_config (Prepare Decode VerifyOk newBuilder rawEqualPorts).1))%N.
Proof.
  assert (Hdec : (Decode rawEqualPorts (b_config newBuilder)).2 = None)
    by (vm_compute; reflexivity).
  assert (Hacc : (Prepare Decode VerifyOk newBuilder rawEqualPorts).2 = None)
    by (vm_compute; reflexivity).
  pose proof (Prepare_accepted_ranges Decode VerifyOk newBuilder rawEqualPorts
                Hdec Hacc) as H.
  cbv zeta in H. destruct H as [H _].
  split; [exact Hdec|]. split; [exact Hacc|].
  split; [vm_compute; reflexivity | exact H].
Defined.

(** X5: the five errors of the inverted configuration, in order. *)
Lemma Prepare_errors_in_order_witness :
  (Decode rawInverted (b_config newBuilder)).2 = None
  /\ (Prepare Decode VerifyMissing newBuilder rawInverted).2
     = Some (MultiError errsInverted)
  /\ errsInverted <> [].
Proof.
  assert (Hdec : (Decode rawInverted (b_config newBuilder)).2 = None)
    by (vm_compute; reflexivity).
  assert (Hres : (Prepare Decode VerifyMissing newBuilder rawInverted).2
                 = Some (MultiError errsInverted))
    by (vm_compute; reflexivity).
  pose proof (Prepare_errors_in_order Decode VerifyMissing newBuilder
                rawInverted errsInverted Hdec Hres) as H.
  cbv zeta in H. destruct H as [H _].
  split; [exact Hdec|]. split; [exact Hres | exact H].
Defined.

(** X6: the VNC range of the inverted configuration is in order, and its
    error is not among the five. *)
Lemma Prepare_reports_only_violations_witness :
  (Decode rawInverted (b_config newBuilder)).2 = None
  /\ (Prepare Decode VerifyMissing newBuilder rawInverted).2
     = Some (MultiError errsInverted)
  /\ errorString "vnc_port_min must be less than vnc_port_max"
     ∉ errsInverted.
Proof.
  assert (Hdec : (Decode rawInverted (b_config newBuilder)).2 = None)
    by (vm_compute; reflexivity).
  assert (Hres : (Prepare Decode VerifyMissing newBuilder rawInverted).2
                 = Some (MultiError errsInverted))
    by (vm_compute; reflexivity).
  pose proof (Prepare_reports_only_violations Decode VerifyMissing newBuilder
                rawInverted errsInverted Hdec Hres) as H.
  cbv zeta in H. destruct H as (_ & Hvnc & _).
  split; [exact Hdec|]. split; [exact Hres|].
  intros Hin. apply Hvnc in Hin. vm_compute in Hin. discriminate Hin.
Defined.

(** X7: only the lower HTTP bound, 9500. *)
Lemma Prepare_default_range_clash_witness :
  (Decode rawMinOnly (b_config newBuilder)).2 = None
  /\ (HTTPPortMax (Decode rawMinOnly (b_config newBuilder)).1 = 0
      /\ 9000 < HTTPPortMin (Decode rawMinOnly (b_config newBuilder)).1)%N
  /\ exists errs,
       (Prepare Decode VerifyOk newBuilder rawMinOnly).2
       = Some (MultiError errs)
       /\ errorString "http_port_min must be less than http_port_max" ∈ errs.
Proof.
  assert (Hdec : (Decode rawMinOnly (b_config newBuilder)).2 = None)
    by (vm_compute; reflexivity).
  assert (Hc : (HTTPPortMax (Decode rawMinOnly (b_config newBuilder)).1 = 0
                /\ 9000 < HTTPPortMin
                            (Decode rawMinOnly (b_config newBuilder)).1)%N)
    by (vm_compute; split; reflexivity).
  pose proof (Prepare_default_range_clash Decode VerifyOk newBuilder
                rawMinOnly Hdec) as H.
  cbv zeta in H. destruct H as [H _].
  split; [exact Hdec|]. split; [exact Hc | exact (H (or_introl Hc))].
Defined.


(** X9: the minimal configuration prepared, then prepared again with
    nothing. *)
Lemma Prepare_again_witness :
  (Decode rawMinimal (b_config newBuilder)).2 = None
  /\ Decode rawEmpty
       (b_config (Prepare Decode VerifyOk newBuilder rawMinimal).1)
     = (b_config (Prepare Decode VerifyOk newBuilder rawMinimal).1, None)
  /\ Prepare Decode VerifyOk
       (Prepare Decode VerifyOk newBuilder rawMinimal).1 rawEmpty
     = ((Prepare Decode VerifyOk newBuilder rawMinimal).1,
        (Prepare Decode VerifyOk newBuilder rawMinimal).2).
Proof.
  assert (Hsame :
    Decode rawEmpty
      (b_config (Prepare Decode VerifyOk newBuilder rawMinimal).1)
    = (b_config (Prepare Decode VerifyOk newBuilder rawMinimal).1, None))
    by (vm_compute; reflexivity).
  split; [exact decoded_ok_minimal|]. split; [exact Hsame|].
  exact (Prepare_again Decode VerifyOk newBuilder rawMinimal rawEmpty
           decoded_ok_minimal Hsame).
Defined.

(** X11: the files [a] and [b/c] under [d]. *)
Lemma Run_success_witness :
  fs worldD !! "d" = Some treeD
  /\ readable treeD = true
  /\ (Run runStepOk cleanupStepNone Join preparedD ui0 hook0 worldD).1.1
     = Some (mkArtifact "d" (paths Join "d" treeD)).
Proof.
  assert (Hf : fs (m_world (Run_pipeline runStepOk cleanupStepNone preparedD
                              ui0 hook0 worldD).1.2)
               !! OutputDir
                    (b_config (Run_pipeline runStepOk cleanupStepNone
                                 preparedD ui0 hook0 worldD).1.1)
               = Some treeD) by (vm_compute; reflexivity).
  assert (Hr : readable treeD = true) by reflexivity.
  pose proof (Run_success runStepOk cleanupStepNone Join preparedD ui0 hook0
                worldD treeD eq_refl eq_refl Hf Hr) as H.
  cbv zeta in H.
  split; [vm_compute; reflexivity|]. split; [exact Hr|].
  rewrite H. reflexivity.
Defined.

(** X12: with a directory that cannot be read, no artifact. *)
Lemma Run_artifact_iff_witness :
  (Run runStepOk cleanupStepNone Join preparedD ui0 hook0
     worldUnreadable).1.1 = None
  /\ ~ exists tree,
         fs worldUnreadable !! "d" = Some tree /\ readable tree = true.
Proof.
  assert (Hnone : (Run runStepOk cleanupStepNone Join preparedD ui0 hook0
                     worldUnreadable).1.1 = None)
    by (vm_compute; reflexivity).
  split; [exact Hnone|].
  intros Hex.
  pose proof (Run_artifact_iff runStepOk cleanupStepNone Join preparedD ui0
                hook0 worldUnreadable eq_refl eq_refl) as H.
  cbv zeta in H.
  assert (Hs : is_Some (Run runStepOk cleanupStepNone Join preparedD ui0
                          hook0 worldUnreadable).1.1).
  { apply H. destruct Hex as (tree & Ht & Hr). exists tree. split; [|exact Hr].
    exact Ht. }
  rewrite Hnone in Hs. destruct Hs as [? Hs]. discriminate Hs.
Defined.
